(** * FigmaToCode: the SwiftUI scene walker and the HTML style builder

    A shallow embedding of
      - [packages/backend/src/swiftui/swiftuiMain.ts]
      - [packages/backend/src/html/htmlDefaultBuilder.ts]
    together with the properties of the design document that concern them.

    Conventions of the embedding.
      - A JavaScript string is a [string]: a sequence of code units below 256.
      - A JavaScript number that holds a measure (width, stroke weight, item
        spacing) is a rational [Q]: every finite double is one, and the code
        only compares such numbers with constants and rounds them.
      - An array is a [list]; [slice], [filter], [map], [join] are the list
        operations of the same name.
      - An optional field of a node ([layoutAlign], [opacity],
        [inferredAutoLayout]) is an [option]: ["f" in node] is [isSome].
      - Helpers imported from files outside the two sources (indentString,
        sliceNum, the fluent builders, the colour resolvers, ...) are fields of
        a host record and stay uninterpreted. *)

From Stdlib Require Import List String Ascii Bool Arith Lia ZArith QArith Qround Lqa.
Import ListNotations.

#[local] Set Warnings "-register-all".
#[local] Open Scope string_scope.
#[local] Open Scope nat_scope.

(** ** JavaScript strings and arrays *)

Module JS.

Definition nl : string := String (ascii_of_nat 10) "".
Definition dquote : string := String (ascii_of_nat 34) "".
Definition backslash : string := String (ascii_of_nat 92) "".

(** [a.join(sep)] *)
Definition join (sep : string) (a : list string) : string := String.concat sep a.

(** [a.slice(i, j)] for [0 <= i], [0 <= j] *)
Definition slice {A : Type} (a : list A) (i j : nat) : list A :=
  firstn (j - i) (skipn i a).

(** [a.filter(s => s)] on strings: the empty string is the only falsy one *)
Definition truthy (s : string) : bool := negb (s =? "")%string.

(** White space of [trim]: TAB, LF, VT, FF, CR, SP and NBSP. *)
Definition isWhiteSpace (c : ascii) : bool :=
  let n := nat_of_ascii c in
  ((9 <=? n) && (n <=? 13)) || (n =? 32) || (n =? 160).

Fixpoint trimStart (s : string) : string :=
  match s with
  | EmptyString => EmptyString
  | String c r => if isWhiteSpace c then trimStart r else s
  end.

Fixpoint trimEnd (s : string) : string :=
  match s with
  | EmptyString => EmptyString
  | String c r =>
      match trimEnd r with
      | EmptyString => if isWhiteSpace c then EmptyString else String c EmptyString
      | r' => String c r'
      end
  end.

Definition trim (s : string) : string := trimEnd (trimStart s).

(** [s.split(sep)] for a separator of one code unit *)
Fixpoint split (sep : ascii) (s : string) : list string :=
  match s with
  | EmptyString => [EmptyString]
  | String c r =>
      if Ascii.eqb c sep then EmptyString :: split sep r
      else match split sep r with
           | [] => [String c EmptyString]
           | h :: t => String c h :: t
           end
  end.

(** [s.startsWith(p)] *)
Definition startsWith (p s : string) : bool := String.prefix p s.

(** [Math.round]: the nearest integer, a tie going up. *)
Definition Math_round (x : Q) : Z := Qfloor (x + (1 # 2)).

End JS.

(** ** The scene graph *)

Module Figma.

Inductive NodeType :=
| FRAME | GROUP | RECTANGLE | ELLIPSE | TEXT | VECTOR | INSTANCE
| COMPONENT | LINE | STAR | POLYGON.

Inductive LayoutMode := NONE | HORIZONTAL | VERTICAL.
Inductive AlignItems := MIN | MAX | CENTER | BASELINE.
Inductive TextCase := ORIGINAL | UPPER | LOWER | TITLE.
Inductive LayoutSizing := FIXED | HUG | FILL.

Inductive PaintType :=
| SOLID | GRADIENT_LINEAR | GRADIENT_RADIAL | GRADIENT_ANGULAR
| GRADIENT_DIAMOND | IMAGE | VIDEO.

Record RGB := { r : Q; g : Q; b : Q }.

(** A paint: its kind, and the data the colour resolvers read. *)
Record Paint := {
  paintType : PaintType;
  paintVisible : bool;
  paintOpacity : Q;
  color : RGB;
  gradientStops : list (Q * RGB)
}.

(** [ReadonlyArray<Paint> | PluginAPI["mixed"]] *)
Inductive Paints :=
| Mixed
| PaintArray (paints : list Paint).

(** [inferredAutoLayoutResult]: the fields the stack synthesizer reads. *)
Record inferredAutoLayoutResult := {
  layoutMode : LayoutMode;
  counterAxisAlignItems : AlignItems;
  itemSpacing : Q
}.

(** A node of the scene.  [nodeLayout] holds the node's own [layoutMode],
    [counterAxisAlignItems] and [itemSpacing], which the stack synthesizer
    reads when it is handed the node in place of an inferred layout. *)
Inductive SceneNode := mkSceneNode {
  type : NodeType;
  name : string;
  visible : bool;
  width : Q;
  height : Q;
  layoutAlign : option string;
  opacity : option Q;
  nodeLayout : inferredAutoLayoutResult;
  inferredAutoLayout : option inferredAutoLayoutResult;
  characters : string;
  textCase : TextCase;
  fills : Paints;
  strokes : Paints;
  strokeTopWeight : Q;
  strokeBottomWeight : Q;
  strokeLeftWeight : Q;
  strokeRightWeight : Q;
  dashPattern : list Q;
  layoutSizingHorizontal : LayoutSizing;
  layoutSizingVertical : LayoutSizing;
  children : list SceneNode
}.

Definition isSome {A : Type} (o : option A) : bool :=
  match o with Some _ => true | None => false end.

(** Nesting depth of a node: a leaf has height 1. *)
Fixpoint nodeHeight (n : SceneNode) : nat :=
  S (fold_right (fun c acc => Nat.max (nodeHeight c) acc) 0 (children n)).

Definition nodesHeight (l : list SceneNode) : nat :=
  fold_right (fun c acc => Nat.max (nodeHeight c) acc) 0 l.

End Figma.

(** ** swiftuiMain.ts *)

Module Swiftui.

Import JS Figma.

(** [PluginSettings], as far as this backend reads it. *)
Record PluginSettings := {
  swiftUIGenerationMode : string;
  optimizeLayout : bool
}.

(** What the file imports from the rest of the backend.  [indentString]
    takes its optional level as an [option]; the two builder fields stand
    for the whole fluent chain of [SwiftuiDefaultBuilder] (from the
    constructor to [build]) and of [SwiftuiTextBuilder]. *)
Record Host := {
  indentString : string -> option nat -> string;
  className : string -> string;
  sliceNum : Q -> string;
  toLowerCase : string -> string;
  toUpperCase : string -> string;
  defaultBuilder : string -> SceneNode -> bool -> Z -> string;
  textBuilder : SceneNode -> bool -> string
}.

(** The result of a call that may raise a [TypeError]. *)
Inductive Outcome :=
| Returns (s : string)
| Throws.

Section Backend.

Variable host : Host.

Definition getStructTemplate (name injectCode : string) : string :=
  "struct " ++ name ++ ": View {" ++ nl ++
  "  var body: some View {" ++ nl ++
  "    " ++ trimStart (indentString host injectCode (Some 4)) ++ ";" ++ nl ++
  "  }" ++ nl ++
  "}".

Definition getPreviewTemplate (name injectCode : string) : string :=
  "import SwiftUI" ++ nl ++
  nl ++
  "struct ContentView: View {" ++ nl ++
  "  var body: some View {" ++ nl ++
  "    " ++ trimStart (indentString host injectCode (Some 4)) ++ ";" ++ nl ++
  "  }" ++ nl ++
  "}" ++ nl ++
  nl ++
  "struct ContentView_Previews: PreviewProvider {" ++ nl ++
  "  static var previews: some View {" ++ nl ++
  "    ContentView()" ++ nl ++
  "  }" ++ nl ++
  "}".

Section Settings.

(** The module-level [localSettings], set once by [swiftuiMain]. *)
Variable localSettings : PluginSettings.

Definition swiftuiContainer (node : SceneNode) (indentLevel : nat)
           (stack : string) : string :=
  if negb (isSome (layoutAlign node)) || negb (isSome (opacity node)) then ""
  else if Qle_bool (width node) 0 || Qle_bool (height node) 0 then stack
  else
    let kind :=
      match type node with
      | RECTANGLE => "Rectangle()"
      | ELLIPSE => "Ellipse()"
      | _ => stack
      end in
    let result :=
      defaultBuilder host kind node (optimizeLayout localSettings)
                     (if (kind =? stack)%string then (-2)%Z else 0%Z) in
    indentString host result (Some indentLevel).

Definition swiftuiText (node : SceneNode) (indentLevel : nat) : string :=
  let text := characters node in
  let text :=
    match textCase node with
    | LOWER => toLowerCase host text
    | UPPER => toUpperCase host text
    | _ => text
    end in
  let splittedChars := split (ascii_of_nat 10) text in
  let charsWithLineBreak :=
    if 1 <? List.length splittedChars
    then join (backslash ++ "n") splittedChars
    else text in
  let modifier := textBuilder host node (optimizeLayout localSettings) in
  let result := nl ++ "Text(" ++ dquote ++ charsWithLineBreak ++ dquote ++ ")" ++ modifier in
  indentString host result (Some indentLevel).

Definition getLayoutAlignment (inferredAutoLayout : inferredAutoLayoutResult)
  : string :=
  match counterAxisAlignItems inferredAutoLayout with
  | MIN =>
      match layoutMode inferredAutoLayout with
      | VERTICAL => ".leading" | _ => ".top" end
  | MAX =>
      match layoutMode inferredAutoLayout with
      | VERTICAL => ".trailing" | _ => ".bottom" end
  | BASELINE => ".firstTextBaseline"
  | CENTER => ""
  end.

Definition defaultSpacing : Z := 16.

Definition getSpacing (inferredAutoLayout : inferredAutoLayoutResult) : Q :=
  if negb (Math_round (itemSpacing inferredAutoLayout) =? defaultSpacing)%Z
  then itemSpacing inferredAutoLayout
  else inject_Z defaultSpacing.

(** A value of [Record<string, string | number>] *)
Inductive PropValue :=
| PStr (s : string)
| PNum (n : Q).

Definition generateSwiftViewCode (className : string)
           (properties : list (string * PropValue)) (children : string)
  : string :=
  let propertiesArray :=
    map (fun kv =>
           fst kv ++ ": " ++
           match snd kv with PNum n => sliceNum host n | PStr s => s end)
        (filter (fun kv =>
                   match snd kv with PStr s => truthy s | PNum _ => true end)
                properties) in
  let compactPropertiesArray := join ", " propertiesArray in
  if 60 <? String.length compactPropertiesArray then
    let formattedProperties := join ("," ++ nl) propertiesArray in
    className ++ "(" ++ nl ++ formattedProperties ++ nl ++ ") {" ++ children ++ nl ++ "}"
  else
    className ++ "(" ++ compactPropertiesArray ++ ") {" ++ nl ++
    indentString host children None ++ nl ++ "}".

Definition createDirectionalStack (children : string)
           (inferredAutoLayout : inferredAutoLayoutResult) : string :=
  match layoutMode inferredAutoLayout with
  | NONE => generateSwiftViewCode "ZStack" [] children
  | mode =>
      generateSwiftViewCode
        (match mode with HORIZONTAL => "HStack" | _ => "VStack" end)
        [("alignment", PStr (getLayoutAlignment inferredAutoLayout));
         ("spacing", PNum (getSpacing inferredAutoLayout))]
        children
  end.

(** The walker and the container renderers call each other; the
    recursive call is the section variable, and the knot is tied
    below by the nesting depth of the nodes. *)
Section Walk.

Variable swiftuiWidgetGenerator : list SceneNode -> nat -> string.

Definition chunk : nat := 10.

Definition truncationWarning : string :=
  nl ++ "// SwiftUI has a 10 item limit in Stacks. By grouping them, it can grow even more. " ++ nl ++
  "// It seems, however, that you have more than 100 items at the same level. Wow!" ++ nl ++
  "// This is not yet supported; Limiting to the first 100 items...".

(** [for (let i = 0, j = slicedChildren.length; i < j; i += chunk)];
    [steps] bounds the number of iterations. *)
Fixpoint chunkLoop (steps : nat) (slicedChildren : list SceneNode)
         (indentLevel i j : nat) (strBuilder : string) : string :=
  match steps with
  | O => strBuilder
  | S steps' =>
      if i <? j then
        let chunkChildren := slice slicedChildren i (i + chunk) in
        let strChildren := swiftuiWidgetGenerator chunkChildren indentLevel in
        chunkLoop steps' slicedChildren indentLevel (i + chunk) j
                  (strBuilder ++ nl ++ "Group {" ++ strChildren ++ nl ++ "}")
      else strBuilder
  end.

Definition widgetGeneratorWithLimits (node : SceneNode) (indentLevel : nat)
  : string :=
  if List.length (children node) <? 10 then
    swiftuiWidgetGenerator (children node) indentLevel
  else
    let strBuilder := "" in
    let slicedChildren := slice (children node) 0 100 in
    let strBuilder :=
      if 100 <? List.length (children node)
      then strBuilder ++ truncationWarning
      else strBuilder in
    let j := List.length slicedChildren in
    chunkLoop j slicedChildren indentLevel 0 j strBuilder.

Definition swiftuiGroup (node : SceneNode) (indentLevel : nat) : string :=
  swiftuiContainer node indentLevel
    (nl ++ "ZStack {" ++ widgetGeneratorWithLimits node indentLevel ++ nl ++ "}").

Definition swiftuiFrame (node : SceneNode) (indentLevel : nat) : string :=
  let children :=
    widgetGeneratorWithLimits node
      (if 1 <? List.length (children node) then indentLevel + 1 else indentLevel) in
  let anyStack :=
    createDirectionalStack children
      (match optimizeLayout localSettings, inferredAutoLayout node with
       | true, Some inferred => inferred
       | _, _ => nodeLayout node
       end) in
  swiftuiContainer node indentLevel anyStack.

(** The body of the [forEach]: what one visible node appends. *)
Definition renderNode (node : SceneNode) (indentLevel : nat) : string :=
  match type node with
  | RECTANGLE | ELLIPSE => swiftuiContainer node indentLevel ""
  | GROUP => swiftuiGroup node indentLevel
  | FRAME => swiftuiFrame node indentLevel
  | TEXT => swiftuiText node indentLevel
  | _ => ""
  end.

Definition forEachStep (indentLevel sceneLen : nat) (comp : string)
           (entry : SceneNode * nat) : string :=
  let (node, index) := entry in
  let comp := comp ++ renderNode node indentLevel in
  if index <? sceneLen - 1 then comp ++ nl else comp.

Definition widgetGeneratorBody (sceneNode : list SceneNode)
           (indentLevel : nat) : string :=
  let comp := "" in
  let visibleSceneNode := filter visible sceneNode in
  let sceneLen := List.length visibleSceneNode in
  fold_left (forEachStep indentLevel sceneLen)
            (combine visibleSceneNode (seq 0 sceneLen)) comp.

End Walk.

(** [fuel] levels of nesting are rendered; below them nothing is. *)
Fixpoint widgetGeneratorFuel (fuel : nat) (sceneNode : list SceneNode)
         (indentLevel : nat) : string :=
  match fuel with
  | O => ""
  | S fuel' => widgetGeneratorBody (widgetGeneratorFuel fuel') sceneNode indentLevel
  end.

Definition swiftuiWidgetGenerator (sceneNode : list SceneNode)
           (indentLevel : nat) : string :=
  widgetGeneratorFuel (nodesHeight sceneNode) sceneNode indentLevel.

End Settings.

Definition swiftuiMain (sceneNode : list SceneNode) (settings : PluginSettings)
  : Outcome :=
  let localSettings := settings in
  let result := swiftuiWidgetGenerator localSettings sceneNode 0 in
  if (swiftUIGenerationMode localSettings =? "snippet")%string then Returns result
  else if (swiftUIGenerationMode localSettings =? "struct")%string then
    match sceneNode with
    | [] => Throws
    | node0 :: _ => Returns (getStructTemplate (className host (name node0)) result)
    end
  else if (swiftUIGenerationMode localSettings =? "preview")%string then
    match sceneNode with
    | [] => Throws
    | node0 :: _ => Returns (getPreviewTemplate (className host (name node0)) result)
    end
  else
    let result :=
      if (0 <? String.length result) && startsWith nl result
      then substring 1 (String.length result - 1) result
      else result in
    Returns result.

End Backend.

End Swiftui.

(** ** htmlDefaultBuilder.ts *)

Module Html.

Import JS Figma.

(** The result of [commonStroke]: one weight for the four edges, or one
    weight per edge. *)
Inductive BorderSide :=
| BorderAll (all : Q)
| BorderSides (left top right bottom : Q).

(** What the file imports from the rest of the backend. *)
Record Host := {
  formatWithJSX : string -> bool -> string -> string;
  sliceNum : Q -> string;
  className : string -> string;
  htmlColorFromFills : Paints -> string;
  htmlGradientFromFills : Paints -> string;
  htmlBorderRadius : SceneNode -> bool -> list string;
  commonStroke : SceneNode -> option BorderSide
}.

(** The fields of the class; every method returns the updated builder. *)
Record HtmlDefaultBuilder := {
  styles : list string;
  isJSX : bool;
  visible : bool;
  node : SceneNode;
  name : string
}.

Definition withStyles (this : HtmlDefaultBuilder) (s : list string)
  : HtmlDefaultBuilder :=
  {| styles := s; isJSX := isJSX this; visible := visible this;
     node := node this; name := name this |}.

Section Backend.

Variable host : Host.

Definition constructor (node : SceneNode) (showLayerName optIsJSX : bool)
  : HtmlDefaultBuilder :=
  {| styles := []; isJSX := optIsJSX; visible := Figma.visible node;
     node := node;
     name := if showLayerName then className host (Figma.name node) else "" |}.

Definition addStyles (this : HtmlDefaultBuilder) (newStyles : list string)
  : HtmlDefaultBuilder :=
  withStyles this (styles this ++ filter truthy newStyles)%list.

Definition consolidateBorders (color borderStyle : string) (border : Q)
  : string :=
  join " " (filter truthy [sliceNum host border ++ "px"; color; borderStyle]).

Definition border (this : HtmlDefaultBuilder) (node : SceneNode)
  : HtmlDefaultBuilder :=
  let this := addStyles this (htmlBorderRadius host node (isJSX this)) in
  match commonStroke host node with
  | None => this
  | Some commonBorder =>
      let color := htmlColorFromFills host (strokes node) in
      let borderStyle :=
        if 0 <? List.length (dashPattern node) then "dotted" else "solid" in
      let consolidateBorders := consolidateBorders color borderStyle in
      match commonBorder with
      | BorderAll all =>
          if Qeq_bool all 0 then this
          else
            let weight := all in
            addStyles this
              [formatWithJSX host "border" (isJSX this) (consolidateBorders weight)]
      | BorderSides left' top' right' bottom' =>
          let this :=
            if negb (Qeq_bool left' 0) then
              addStyles this
                [formatWithJSX host "border-left" (isJSX this) (consolidateBorders left')]
            else this in
          let this :=
            if negb (Qeq_bool top' 0) then
              addStyles this
                [formatWithJSX host "border-top" (isJSX this) (consolidateBorders top')]
            else this in
          let this :=
            if negb (Qeq_bool right' 0) then
              addStyles this
                [formatWithJSX host "border-right" (isJSX this) (consolidateBorders right')]
            else this in
          let this :=
            if negb (Qeq_bool bottom' 0) then
              addStyles this
                [formatWithJSX host "border-bottom" (isJSX this) (consolidateBorders bottom')]
            else this in
          this
      end
  end.

Definition isSOLID (paint : Paint) : bool :=
  match paintType paint with SOLID => true | _ => false end.

Definition isGradient (paint : Paint) : bool :=
  match paintType paint with
  | GRADIENT_LINEAR | GRADIENT_RADIAL | GRADIENT_ANGULAR => true
  | _ => false
  end.

(** The callback of [paintArray.map] *)
Definition paintStyle (paint : Paint) : string :=
  if isSOLID paint then
    let color := htmlColorFromFills host (PaintArray [paint]) in
    "linear-gradient(0deg, " ++ color ++ " 0%, " ++ color ++ " 100%)"
  else if isGradient paint then
    htmlGradientFromFills host (PaintArray [paint])
  else "".

Definition buildBackgroundValues (paintArray : Paints) : string :=
  match paintArray with
  | Mixed => ""
  | PaintArray paints =>
      if (List.length paints =? 1)
         && match nth_error paints 0 with
            | Some paint0 => isSOLID paint0
            | None => false
            end
      then htmlColorFromFills host paintArray
      else
        let styles := map paintStyle paints in
        join ", " (filter truthy styles)
  end.

Definition applyFillsToStyle (this : HtmlDefaultBuilder) (paintArray : Paints)
           (text : bool) : HtmlDefaultBuilder :=
  if text then
    addStyles this
      [formatWithJSX host "text" (isJSX this) (htmlColorFromFills host paintArray)]
  else
    let backgroundValues := buildBackgroundValues paintArray in
    if truthy backgroundValues then
      addStyles this [formatWithJSX host "background" (isJSX this) backgroundValues]
    else this.

(** [s.split(":")[0].trim()] *)
Definition styleProp (s : string) : string :=
  trim (hd "" (split ":"%char s)).

Definition LayoutSizing_isFIXED (m : LayoutSizing) : bool :=
  match m with FIXED => true | _ => false end.

(** The callback of [formattedStyles.filter] in [build] *)
Definition keepStyle (this : HtmlDefaultBuilder) (s : string) : bool :=
  let styleProp := styleProp s in
  if (styleProp =? "width")%string then
    LayoutSizing_isFIXED (layoutSizingHorizontal (node this))
  else if (styleProp =? "height")%string then
    LayoutSizing_isFIXED (layoutSizingVertical (node this))
  else true.

(** [build], down to the style attribute: the local [formattedStylesFiltered] *)
Definition build_formattedStylesFiltered (this : HtmlDefaultBuilder)
           (additionalStyle : list string) : list string :=
  let this := addStyles this additionalStyle in
  let formattedStyles := map trim (styles this) in
  filter (keepStyle this) formattedStyles.

(** ... and the local [formattedStyle] before the [data-fig-*] attributes
    are put in front of it. *)
Definition build_formattedStyle (this : HtmlDefaultBuilder)
           (additionalStyle : list string) : string :=
  let formattedStylesFiltered := build_formattedStylesFiltered this additionalStyle in
  let this := addStyles this additionalStyle in
  if 0 <? List.length (styles this) then
    if isJSX this then
      " style={{" ++ join ", " formattedStylesFiltered ++ "}}"
    else
      " style=" ++ dquote ++ join "; " formattedStylesFiltered ++ dquote
  else "".

End Backend.

End Html.

(** ** The design document's reading of the walker and of the chunking *)

Module Design.

Import JS Figma.

(** Consecutive chunks of [n] elements, the last one possibly shorter. *)
Fixpoint chunksFuel {A : Type} (fuel n : nat) (l : list A) : list (list A) :=
  match fuel with
  | O => []
  | S fuel' =>
      match l with
      | [] => []
      | _ :: _ => firstn n l :: chunksFuel fuel' n (skipn n l)
      end
  end.

Definition chunksOf {A : Type} (n : nat) (l : list A) : list (list A) :=
  chunksFuel (List.length l) n l.

(** The sizes of the chunks of a list of [len] elements. *)
Fixpoint chunkSizes (fuel n len : nat) : list nat :=
  match fuel with
  | O => []
  | S fuel' =>
      match len with
      | O => []
      | S _ => Nat.min n len :: chunkSizes fuel' n (len - n)
      end
  end.

Section Walker.

Variable generator : list SceneNode -> nat -> string.

(** One neutral grouping construct around a chunk. *)
Definition groupOf (indentLevel : nat) (chunkChildren : list SceneNode) : string :=
  nl ++ "Group {" ++ generator chunkChildren indentLevel ++ nl ++ "}".

(** The truncation comment, when there is one, then one group per chunk
    of the first hundred children. *)
Definition chunkedOutput (node : SceneNode) (indentLevel : nat) : string :=
  (if 100 <? List.length (children node)
   then Swiftui.truncationWarning else "")
  ++ String.concat "" (map (groupOf indentLevel)
                           (chunksOf 10 (firstn 100 (children node)))).

End Walker.

(** A kind with a registered renderer. *)
Definition hasRenderer (node : SceneNode) : bool :=
  match type node with
  | RECTANGLE | ELLIPSE | GROUP | FRAME | TEXT => true
  | _ => false
  end.

(** The walker as the document words it: one unit per visible node that
    has a renderer, the others leaving no trace. *)
Definition walkerAsDocumented (render : SceneNode -> nat -> string)
           (sceneNode : list SceneNode) (indentLevel : nat) : string :=
  join nl (map (fun node => render node indentLevel)
               (filter hasRenderer (filter visible sceneNode))).

(** A paint kind the background resolver renders. *)
Definition supportedPaint (paint : Paint) : bool :=
  Html.isSOLID paint || Html.isGradient paint.

(** The four edges with their weights, in the order of emission. *)
Definition edges (leftW topW rightW bottomW : Q) : list (string * Q) :=
  [("border-left", leftW); ("border-top", topW);
   ("border-right", rightW); ("border-bottom", bottomW)].

End Design.

(** ** A sample host and sample scenes, to run the model *)

Module Sample.

Import JS Figma.

Fixpoint spaces (n : nat) : string :=
  match n with O => "" | S n' => " " ++ spaces n' end.

(** Every line that is not blank is moved right; two columns by default. *)
Definition indentString (str : string) (indentLevel : option nat) : string :=
  let n := match indentLevel with Some n => n | None => 2 end in
  join nl (map (fun line => if (trim line =? "")%string then line else spaces n ++ line)
               (split (ascii_of_nat 10) str)).

Definition lowerChar (c : ascii) : ascii :=
  let n := nat_of_ascii c in
  if (65 <=? n) && (n <=? 90) then ascii_of_nat (n + 32) else c.

Definition upperChar (c : ascii) : ascii :=
  let n := nat_of_ascii c in
  if (97 <=? n) && (n <=? 122) then ascii_of_nat (n - 32) else c.

Fixpoint mapChars (f : ascii -> ascii) (s : string) : string :=
  match s with
  | EmptyString => EmptyString
  | String c r => String (f c) (mapChars f r)
  end.

Definition digit (n : nat) : string :=
  String (ascii_of_nat (48 + n mod 10)) "".

Fixpoint natToString (fuel n : nat) : string :=
  match fuel with
  | O => digit n
  | S fuel' => if n <? 10 then digit n else natToString fuel' (n / 10) ++ digit n
  end.

(** The integer part of a measure, in decimal. *)
Definition sliceNum (q : Q) : string :=
  let z := Qfloor q in
  ((if z <? 0 then "-" else "") ++ natToString 20 (Z.abs_nat z))%Z.

#[local] Open Scope Q_scope.

Definition swiftuiHost : Swiftui.Host :=
  {| Swiftui.indentString := indentString;
     Swiftui.className := fun s => s;
     Swiftui.sliceNum := sliceNum;
     Swiftui.toLowerCase := mapChars lowerChar;
     Swiftui.toUpperCase := mapChars upperChar;
     Swiftui.defaultBuilder := fun kind _ _ _ => kind;
     Swiftui.textBuilder := fun _ _ => "" |}.

Definition snippet : Swiftui.PluginSettings :=
  {| Swiftui.swiftUIGenerationMode := "snippet"; Swiftui.optimizeLayout := false |}.

Definition struct : Swiftui.PluginSettings :=
  {| Swiftui.swiftUIGenerationMode := "struct"; Swiftui.optimizeLayout := false |}.

(** The walker and the unit of one node, under the sample host. *)
Definition generator : list SceneNode -> nat -> string :=
  Swiftui.swiftuiWidgetGenerator swiftuiHost snippet.

Definition unitOf (node : SceneNode) (indentLevel : nat) : string :=
  Swiftui.renderNode swiftuiHost snippet generator node indentLevel.

Definition noLayout : inferredAutoLayoutResult :=
  {| layoutMode := NONE; counterAxisAlignItems := MIN; itemSpacing := 0 |}.

Definition black : RGB := {| r := 0; g := 0; b := 0 |}.

Definition solid (c : RGB) : Paint :=
  {| paintType := SOLID; paintVisible := true; paintOpacity := 1; color := c;
     gradientStops := [] |}.

Definition paintOf (t : PaintType) : Paint :=
  {| paintType := t; paintVisible := true; paintOpacity := 1; color := black;
     gradientStops := [(0, black); (1, black)] |}.

(** A visible node of the given kind and size. *)
Definition sceneNode (t : NodeType) (w h : Q) (kids : list SceneNode) : SceneNode :=
  {| type := t; name := "Layer"; visible := true; width := w; height := h;
     layoutAlign := Some "INHERIT"; opacity := Some 1;
     nodeLayout := noLayout; inferredAutoLayout := None;
     characters := "Hi"; textCase := ORIGINAL;
     fills := PaintArray []; strokes := PaintArray [solid black];
     strokeTopWeight := 1; strokeBottomWeight := 1;
     strokeLeftWeight := 1; strokeRightWeight := 1;
     dashPattern := [];
     layoutSizingHorizontal := FIXED; layoutSizingVertical := HUG;
     children := kids |}.

Definition rectangle : SceneNode := sceneNode RECTANGLE 10 10 [].
Definition vector : SceneNode := sceneNode VECTOR 10 10 [].
Definition text : SceneNode := sceneNode TEXT 10 10 [].
Definition hidden : SceneNode :=
  {| type := RECTANGLE; name := "Layer"; visible := false; width := 10; height := 10;
     layoutAlign := Some "INHERIT"; opacity := Some 1;
     nodeLayout := noLayout; inferredAutoLayout := None;
     characters := ""; textCase := ORIGINAL;
     fills := PaintArray []; strokes := PaintArray [];
     strokeTopWeight := 0; strokeBottomWeight := 0;
     strokeLeftWeight := 0; strokeRightWeight := 0;
     dashPattern := [];
     layoutSizingHorizontal := FIXED; layoutSizingVertical := FIXED;
     children := [] |}.

(** A group of [n] rectangles. *)
Definition groupOfSize (n : nat) : SceneNode :=
  sceneNode GROUP 10 10 (repeat rectangle n).

(** A group that has collapsed to no width. *)
Definition flatGroup : SceneNode := sceneNode GROUP 0 10 [rectangle].

Definition layoutWithSpacing (q : Q) : inferredAutoLayoutResult :=
  {| layoutMode := VERTICAL; counterAxisAlignItems := CENTER; itemSpacing := q |}.

(** The HTML side: [property: value], a colour name, and the stroke weights
    of the node read as [commonStroke] reads them. *)
Definition commonStroke (node : SceneNode) : option Html.BorderSide :=
  match strokes node with
  | Mixed => None
  | PaintArray [] => None
  | PaintArray (_ :: _) =>
      if Qeq_bool (strokeTopWeight node) (strokeBottomWeight node)
         && Qeq_bool (strokeTopWeight node) (strokeLeftWeight node)
         && Qeq_bool (strokeTopWeight node) (strokeRightWeight node)
      then Some (Html.BorderAll (strokeTopWeight node))
      else Some (Html.BorderSides (strokeLeftWeight node) (strokeTopWeight node)
                                  (strokeRightWeight node) (strokeBottomWeight node))
  end.

Definition htmlHost : Html.Host :=
  {| Html.formatWithJSX := fun property _ value => property ++ ": " ++ value;
     Html.sliceNum := sliceNum;
     Html.className := fun s => s;
     Html.htmlColorFromFills :=
       fun paints =>
         match paints with
         | PaintArray (p :: _) =>
             match paintType p with SOLID => "black" | _ => "" end
         | _ => ""
         end;
     Html.htmlGradientFromFills :=
       fun paints =>
         match paints with
         | PaintArray (p :: _) =>
             match paintType p with
             | GRADIENT_LINEAR => "linear-gradient(90deg, black 0%, black 100%)"
             | GRADIENT_RADIAL => "radial-gradient(black 0%, black 100%)"
             | GRADIENT_ANGULAR => "conic-gradient(black 0%, black 100%)"
             | _ => ""
             end
         | _ => ""
         end;
     Html.htmlBorderRadius := fun _ _ => [];
     Html.commonStroke := commonStroke |}.

(** A rectangle whose stroke weights are the given ones. *)
Definition stroked (l t r' b' : Q) : SceneNode :=
  {| type := RECTANGLE; name := "Layer"; visible := true; width := 10; height := 10;
     layoutAlign := Some "INHERIT"; opacity := Some 1;
     nodeLayout := noLayout; inferredAutoLayout := None;
     characters := ""; textCase := ORIGINAL;
     fills := PaintArray []; strokes := PaintArray [solid black];
     strokeTopWeight := t; strokeBottomWeight := b';
     strokeLeftWeight := l; strokeRightWeight := r';
     dashPattern := [];
     layoutSizingHorizontal := FIXED; layoutSizingVertical := HUG;
     children := [] |}.

#[local] Close Scope Q_scope.

(** A builder that has accumulated a width, a height and a background. *)
Definition sizedBuilder : Html.HtmlDefaultBuilder :=
  {| Html.styles := ["width: 10px"; " height: 20px "; "background: black"];
     Html.isJSX := false; Html.visible := true;
     Html.node := rectangle; Html.name := "" |}.

End Sample.

(** ** htmlDefaultBuilder.ts: the shape steps *)

Module Steps.

Import JS Figma.

Inductive EffectType := DROP_SHADOW | INNER_SHADOW | LAYER_BLUR | BACKGROUND_BLUR.

(** An effect: its kind, its visibility flag and its radius. *)
Record Effect := {
  effectType : EffectType;
  effectVisible : bool;
  radius : Q
}.

(** A scene node together with its [effects] field, when it has one. *)
Record EffectsNode := {
  scene :> SceneNode;
  effects : option (list Effect)
}.

(** The imports of the claims' part, and [htmlShadow]. *)
Record Host := {
  html :> Html.Host;
  htmlShadow : EffectsNode -> string
}.

Definition withEffects (node : EffectsNode) (es : option (list Effect)) : EffectsNode :=
  {| scene := scene node; effects := es |}.

Section Backend.

Variable host : Host.

Definition shadow (this : Html.HtmlDefaultBuilder) (node : EffectsNode)
  : Html.HtmlDefaultBuilder :=
  if isSome (effects node) then
    let shadow := htmlShadow host node in
    if truthy shadow then
      Html.addStyles this
        [Html.formatWithJSX host "box-shadow" (Html.isJSX this) (htmlShadow host node)]
    else this
  else this.

Definition isLayerBlur (e : Effect) : bool :=
  match effectType e with LAYER_BLUR => effectVisible e | _ => false end.

Definition isBackgroundBlur (e : Effect) : bool :=
  match effectType e with BACKGROUND_BLUR => effectVisible e | _ => false end.

Definition blur (this : Html.HtmlDefaultBuilder) (node : EffectsNode)
  : Html.HtmlDefaultBuilder :=
  match effects node with
  | Some es =>
      if 0 <? List.length es then
        let blur := find isLayerBlur es in
        let this :=
          match blur with
          | Some blur =>
              Html.addStyles this
                [Html.formatWithJSX host "filter" (Html.isJSX this)
                   ("blur(" ++ Html.sliceNum host (radius blur) ++ "px)")]
          | None => this
          end in
        let backgroundBlur := find isBackgroundBlur es in
        match backgroundBlur with
        | Some backgroundBlur =>
            Html.addStyles this
              [Html.formatWithJSX host "backdrop-filter" (Html.isJSX this)
                 ("blur(" ++ Html.sliceNum host (radius backgroundBlur) ++ "px)")]
        | None => this
        end
      else this
  | None => this
  end.

Definition commonShapeStyles (this : Html.HtmlDefaultBuilder) (node : EffectsNode)
  : Html.HtmlDefaultBuilder :=
  let this :=
    Html.applyFillsToStyle host this (fills node)
      (match type node with TEXT => true | _ => false end) in
  let this := shadow this node in
  let this := Html.border host this node in
  let this := blur this node in
  this.

End Backend.

End Steps.

(** ** htmlDefaultBuilder.ts: the style-name override of the later revision *)

Module Revision.

Import JS Figma.

(** [figma.getStyleById(id)?.name], and the dynamic read [this.node[key]]
    of a style identifier; [None] is [undefined]. *)
Record Host := {
  styleName : option string -> option string;
  nodeField : SceneNode -> string -> option string
}.

(** [a.findIndex(p)]; [None] is the [-1] of JavaScript. *)
Fixpoint findIndex {A : Type} (p : A -> bool) (a : list A) : option nat :=
  match a with
  | [] => None
  | x :: rest =>
      if p x then Some 0
      else match findIndex p rest with
           | Some i => Some (S i)
           | None => None
           end
  end.

(** [a[i] = x] for an index inside the array *)
Definition setAt {A : Type} (a : list A) (i : nat) (x : A) : list A :=
  (firstn i a ++ x :: skipn (S i) a)%list.

Section Backend.

Variable host : Host.

Definition addVariableStyle (this : Html.HtmlDefaultBuilder)
           (stylePropName nodeStyleIdPropName : string) : Html.HtmlDefaultBuilder :=
  let id := nodeField host (Html.node this) nodeStyleIdPropName in
  if negb (match id with Some s => (s =? "")%string | None => false end) then
    match styleName host id with
    | Some varName =>
        if truthy varName then
          let styleIndex :=
            findIndex (fun s => startsWith (stylePropName ++ ":") s) (Html.styles this) in
          let newStyleVal := stylePropName ++ ": var=" ++ varName in
          match styleIndex with
          | Some i => Html.withStyles this (setAt (Html.styles this) i newStyleVal)
          | None => Html.withStyles this (Html.styles this ++ [newStyleVal])%list
          end
        else this
    | None => this
    end
  else this.

(** [build], down to the builder whose styles are serialized. *)
Definition build_overridden (this : Html.HtmlDefaultBuilder)
           (additionalStyle : list string) : Html.HtmlDefaultBuilder :=
  let this := Html.addStyles this additionalStyle in
  let this := addVariableStyle this "background" "backgroundStyleId" in
  match type (Html.node this) with
  | FRAME => this
  | _ => addVariableStyle this "color" "fillStyleId"
  end.

Definition build_formattedStylesFiltered (this : Html.HtmlDefaultBuilder)
           (additionalStyle : list string) : list string :=
  let this := build_overridden this additionalStyle in
  let formattedStyles := map trim (Html.styles this) in
  filter (Html.keepStyle this) formattedStyles.

End Backend.

End Revision.

(** ** htmlDefaultBuilder.ts: the encoding of the instance properties *)

Module Props.

Import JS.

Definition quoteChar : ascii := ascii_of_nat 34.
Definition backslashChar : ascii := ascii_of_nat 92.

(** The first [replace] of [propsStr], global: every backslash followed by
    a double quote becomes the token [quote] in brackets, from left to
    right. *)
Fixpoint replaceEscapedQuotes (s : string) : string :=
  match s with
  | EmptyString => EmptyString
  | String c rest =>
      match rest with
      | String d rest' =>
          if Ascii.eqb c backslashChar && Ascii.eqb d quoteChar
          then "[quote]" ++ replaceEscapedQuotes rest'
          else String c (replaceEscapedQuotes rest)
      | EmptyString => String c EmptyString
      end
  end.

(** The second [replace], global: every double quote becomes two
    backticks. *)
Fixpoint replaceQuotes (s : string) : string :=
  match s with
  | EmptyString => EmptyString
  | String c rest =>
      if Ascii.eqb c quoteChar then "``" ++ replaceQuotes rest
      else String c (replaceQuotes rest)
  end.

(** [propsStr], from the text [JSON.stringify(props)] gives. *)
Definition propsStr (json : string) : string :=
  replaceQuotes (replaceEscapedQuotes json).

End Props.

(** ** Notions the further properties are stated with *)

Module Derived.

Import JS Figma.

Definition lineFeed : ascii := ascii_of_nat 10.

(** Every line feed replaced by a backslash and an [n]. *)
Fixpoint escapeLineBreaks (s : string) : string :=
  match s with
  | EmptyString => EmptyString
  | String c rest =>
      if Ascii.eqb c lineFeed then backslash ++ "n" ++ escapeLineBreaks rest
      else String c (escapeLineBreaks rest)
  end.

(** The code unit [c] occurs in [s]. *)
Fixpoint hasChar (c : ascii) (s : string) : bool :=
  match s with
  | EmptyString => false
  | String d rest => Ascii.eqb d c || hasChar c rest
  end.

(** [s] starts with white space. *)
Definition leadingWhiteSpace (s : string) : bool :=
  match s with
  | EmptyString => false
  | String c _ => isWhiteSpace c
  end.

(** The text of a text node once its case is applied. *)
Definition casedText (host : Swiftui.Host) (node : SceneNode) : string :=
  match textCase node with
  | LOWER => Swiftui.toLowerCase host (characters node)
  | UPPER => Swiftui.toUpperCase host (characters node)
  | _ => characters node
  end.

(** The properties a directional stack is written with. *)
Definition stackProperties (host : Swiftui.Host) (layout : inferredAutoLayoutResult)
  : list string :=
  (match counterAxisAlignItems layout with
   | CENTER => []
   | _ => [("alignment: " ++ Swiftui.getLayoutAlignment layout)%string]
   end
   ++ [("spacing: " ++ Swiftui.sliceNum host (Swiftui.getSpacing layout))%string])%list.

(** The effects [blur] can pick: the visible blurs. *)
Definition isVisibleBlur (e : Steps.Effect) : bool :=
  Steps.isLayerBlur e || Steps.isBackgroundBlur e.

(** The effects [blur] does pick: the first visible layer blur, then the
    first visible background blur. *)
Definition pickedBlurs (es : list Steps.Effect) : list Steps.Effect :=
  (match find Steps.isLayerBlur es with Some e => [e] | None => [] end
   ++ match find Steps.isBackgroundBlur es with Some e => [e] | None => [] end)%list.

(** The builder before any declaration. *)
Definition cleared (this : Html.HtmlDefaultBuilder) : Html.HtmlDefaultBuilder :=
  Html.withStyles this [].

End Derived.

(** ** Further samples *)

Module MoreSamples.

Import JS Figma.

#[local] Open Scope Q_scope.

Definition stepsHost : Steps.Host :=
  {| Steps.html := Sample.htmlHost;
     Steps.htmlShadow := fun _ => "" |}.

Definition layerBlur (visible : bool) (r : Q) : Steps.Effect :=
  {| Steps.effectType := Steps.LAYER_BLUR; Steps.effectVisible := visible;
     Steps.radius := r |}.

Definition backgroundBlur (visible : bool) (r : Q) : Steps.Effect :=
  {| Steps.effectType := Steps.BACKGROUND_BLUR; Steps.effectVisible := visible;
     Steps.radius := r |}.

Definition dropShadow : Steps.Effect :=
  {| Steps.effectType := Steps.DROP_SHADOW; Steps.effectVisible := true;
     Steps.radius := 4 |}.

(** A rectangle with a shadow, a hidden blur, a background blur and a blur. *)
Definition blurred : Steps.EffectsNode :=
  {| Steps.scene := Sample.rectangle;
     Steps.effects := Some [dropShadow; layerBlur false 9; backgroundBlur true 2;
                            layerBlur true 3] |}.

Definition emptyBuilder : Html.HtmlDefaultBuilder :=
  Html.constructor Sample.htmlHost Sample.rectangle false false.

(** A builder that holds a height only, for a node that hugs its content
    vertically. *)
Definition heightOnly : Html.HtmlDefaultBuilder :=
  {| Html.styles := ["height: 20px"]; Html.isJSX := false; Html.visible := true;
     Html.node := Sample.rectangle; Html.name := "" |}.

(** Styles named [Primary] for every identifier but the empty one. *)
Definition revisionHost : Revision.Host :=
  {| Revision.styleName :=
       fun id => match id with Some _ => Some "Primary" | None => None end;
     Revision.nodeField :=
       fun _ key => if (key =? "backgroundStyleId")%string then Some "S:1" else Some "" |}.

(** A group of ten hidden rectangles. *)
Definition hiddenGroup : SceneNode :=
  Sample.sceneNode GROUP 10 10 (repeat Sample.hidden 10).

Definition centered : inferredAutoLayoutResult :=
  {| layoutMode := HORIZONTAL; counterAxisAlignItems := CENTER; itemSpacing := 8 |}.

#[local] Close Scope Q_scope.

End MoreSamples.

(** * Properties *)

Import JS Figma.

(** ** The model at work *)

Example trim_declaration : trim "  height: 20px  " = "height: 20px".
Proof. reflexivity. Qed.

Example split_declaration : split ":"%char "width: 10px" = ["width"; " 10px"].
Proof. reflexivity. Qed.

Example round_half_up :
  Math_round (31 # 2) = 16%Z /\ Math_round (33 # 2) = 17%Z /\ Math_round (-5 # 2) = (-2)%Z.
Proof. repeat split; reflexivity. Qed.

Example snippet_of_scene :
  Swiftui.swiftuiMain Sample.swiftuiHost
    [Sample.text; Sample.hidden; Sample.groupOfSize 2] Sample.snippet
  = Swiftui.Returns
      (nl ++ "Text(" ++ dquote ++ "Hi" ++ dquote ++ ")" ++ nl
       ++ nl ++ "ZStack {Rectangle()" ++ nl ++ "Rectangle()" ++ nl ++ "}").
Proof. reflexivity. Qed.

Example struct_of_empty_scene :
  Swiftui.swiftuiMain Sample.swiftuiHost [] Sample.struct = Swiftui.Throws.
Proof. reflexivity. Qed.

Example struct_of_rectangle :
  Swiftui.swiftuiMain Sample.swiftuiHost [Sample.rectangle] Sample.struct
  = Swiftui.Returns
      ("struct Layer: View {" ++ nl ++
       "  var body: some View {" ++ nl ++
       "    Rectangle();" ++ nl ++
       "  }" ++ nl ++
       "}").
Proof. reflexivity. Qed.

(** ** Strings and lists *)

Lemma append_assoc (s1 s2 s3 : string) : (s1 ++ s2) ++ s3 = s1 ++ (s2 ++ s3).
Proof.
  induction s1 as [|c s1 IH]; simpl; [reflexivity | now rewrite IH].
Qed.

Lemma append_nil_r (s : string) : s ++ "" = s.
Proof.
  induction s as [|c s IH]; simpl; [reflexivity | now rewrite IH].
Qed.

Lemma append_eq_nil (s1 s2 : string) : s1 ++ s2 = "" -> s1 = "" /\ s2 = "".
Proof.
  destruct s1; simpl; [auto | discriminate].
Qed.

Lemma join_cons2 (sep x y : string) (l : list string) :
  join sep (x :: y :: l) = x ++ sep ++ join sep (y :: l).
Proof. reflexivity. Qed.

Lemma truthy_true (s : string) : truthy s = true <-> s <> "".
Proof.
  unfold truthy. destruct (String.eqb_spec s ""); simpl; split; intros; congruence.
Qed.

Lemma skipn_nil_length {A : Type} (i : nat) (l : list A) :
  (i <? List.length l) = match skipn i l with [] => false | _ :: _ => true end.
Proof.
  revert i; induction l as [|x l IH]; intros [|i]; simpl; try reflexivity.
  apply IH.
Qed.

Lemma nodeHeight_children (n : SceneNode) :
  nodeHeight n = S (nodesHeight (children n)).
Proof. destruct n; reflexivity. Qed.

Lemma nodesHeight_In (l : list SceneNode) (n : SceneNode) :
  In n l -> nodeHeight n <= nodesHeight l.
Proof.
  induction l as [|x l IH]; simpl; [tauto|].
  intros [->|H]; [lia | specialize (IH H); lia].
Qed.

Lemma nodesHeight_bound (l : list SceneNode) (k : nat) :
  (forall n, In n l -> nodeHeight n <= k) -> nodesHeight l <= k.
Proof.
  induction l as [|x l IH]; simpl; intros H; [lia|].
  apply Nat.max_lub; [apply H; now left | apply IH; intros; apply H; now right].
Qed.

Lemma nodesHeight_incl (l m : list SceneNode) :
  incl l m -> nodesHeight l <= nodesHeight m.
Proof.
  intros H. apply nodesHeight_bound. intros n Hn. apply nodesHeight_In, H, Hn.
Qed.

Lemma nodesHeight_zero (l : list SceneNode) : nodesHeight l = 0 -> l = [].
Proof.
  destruct l as [|x l]; [reflexivity|]. simpl.
  rewrite nodeHeight_children. lia.
Qed.

Lemma incl_firstn {A : Type} (n : nat) (l : list A) : incl (firstn n l) l.
Proof.
  intros x Hx. rewrite <- (firstn_skipn n l). apply in_or_app. now left.
Qed.

Lemma incl_skipn {A : Type} (n : nat) (l : list A) : incl (skipn n l) l.
Proof.
  intros x Hx. rewrite <- (firstn_skipn n l). apply in_or_app. now right.
Qed.

Lemma incl_slice {A : Type} (l : list A) (i j : nat) : incl (slice l i j) l.
Proof.
  unfold slice. eapply incl_tran; [apply incl_firstn | apply incl_skipn].
Qed.

(** ** The scene walker *)

Section WalkerFacts.

Variable host : Swiftui.Host.
Variable localSettings : Swiftui.PluginSettings.

#[local] Abbreviation renderNode := (Swiftui.renderNode host localSettings).
#[local] Abbreviation widgetGeneratorBody := (Swiftui.widgetGeneratorBody host localSettings).
#[local] Abbreviation widgetGeneratorFuel := (Swiftui.widgetGeneratorFuel host localSettings).
#[local] Abbreviation swiftuiWidgetGenerator := (Swiftui.swiftuiWidgetGenerator host localSettings).

(** The [forEach] loop, started at index [k] of [k + length l] nodes. *)
Lemma forEach_join (g : list SceneNode -> nat -> string) (indentLevel : nat)
      (l : list SceneNode) :
  forall (k : nat) (comp : string),
    fold_left (Swiftui.forEachStep host localSettings g indentLevel (k + List.length l))
              (combine l (seq k (List.length l))) comp
    = comp ++ join nl (map (fun node => renderNode g node indentLevel) l).
Proof.
  induction l as [|x l IH]; intros k comp.
  - simpl. now rewrite append_nil_r.
  - cbn [List.length seq combine fold_left].
    replace (k + S (List.length l)) with (S k + List.length l) by lia.
    rewrite IH. unfold Swiftui.forEachStep.
    destruct l as [|y l].
    + cbn [List.length map]. replace (k <? S k + 0 - 1) with false
        by (symmetry; apply Nat.ltb_ge; lia).
      cbn. now rewrite !append_nil_r.
    + replace (k <? S k + List.length (y :: l) - 1) with true
        by (symmetry; apply Nat.ltb_lt; cbn [List.length]; lia).
      cbn [map]. rewrite join_cons2. now rewrite !append_assoc.
Qed.

(** The walker is a [join] of the units of the visible nodes. *)
Lemma widgetGeneratorBody_join (g : list SceneNode -> nat -> string)
      (sceneNode : list SceneNode) (indentLevel : nat) :
  widgetGeneratorBody g sceneNode indentLevel
  = join nl (map (fun node => renderNode g node indentLevel)
                 (filter visible sceneNode)).
Proof.
  unfold Swiftui.widgetGeneratorBody.
  exact (forEach_join g indentLevel (filter visible sceneNode) 0 "").
Qed.

Lemma chunkLoop_ext (g1 g2 : list SceneNode -> nat -> string)
      (slicedChildren : list SceneNode) (indentLevel j : nat) :
  (forall l k, incl l slicedChildren -> g1 l k = g2 l k) ->
  forall steps i strBuilder,
    Swiftui.chunkLoop g1 steps slicedChildren indentLevel i j strBuilder
    = Swiftui.chunkLoop g2 steps slicedChildren indentLevel i j strBuilder.
Proof.
  intros Hg. induction steps as [|steps IH]; intros i sb; simpl; [reflexivity|].
  destruct (i <? j); [|reflexivity].
  rewrite (Hg _ _ (incl_slice slicedChildren i (i + Swiftui.chunk))). apply IH.
Qed.

Lemma widgetGeneratorWithLimits_ext (g1 g2 : list SceneNode -> nat -> string)
      (node : SceneNode) (indentLevel : nat) :
  (forall l k, incl l (children node) -> g1 l k = g2 l k) ->
  Swiftui.widgetGeneratorWithLimits g1 node indentLevel
  = Swiftui.widgetGeneratorWithLimits g2 node indentLevel.
Proof.
  intros Hg. unfold Swiftui.widgetGeneratorWithLimits.
  destruct (List.length (children node) <? 10).
  - apply Hg, incl_refl.
  - apply chunkLoop_ext. intros l k Hl. apply Hg.
    eapply incl_tran; [exact Hl | apply incl_slice].
Qed.

Lemma renderNode_ext (g1 g2 : list SceneNode -> nat -> string)
      (node : SceneNode) (indentLevel : nat) :
  (forall l k, incl l (children node) -> g1 l k = g2 l k) ->
  renderNode g1 node indentLevel = renderNode g2 node indentLevel.
Proof.
  intros Hg. unfold Swiftui.renderNode, Swiftui.swiftuiGroup, Swiftui.swiftuiFrame.
  destruct (type node); try reflexivity;
    now rewrite !(widgetGeneratorWithLimits_ext g1 g2 node _ Hg).
Qed.

Lemma widgetGeneratorBody_ext (g1 g2 : list SceneNode -> nat -> string)
      (sceneNode : list SceneNode) (indentLevel : nat) :
  (forall node, In node sceneNode ->
                forall l k, incl l (children node) -> g1 l k = g2 l k) ->
  widgetGeneratorBody g1 sceneNode indentLevel
  = widgetGeneratorBody g2 sceneNode indentLevel.
Proof.
  intros Hg. rewrite !widgetGeneratorBody_join. f_equal.
  apply map_ext_in. intros node Hn. apply filter_In in Hn.
  apply renderNode_ext, Hg, Hn.
Qed.

(** Fuel beyond the nesting depth changes nothing. *)
Lemma widgetGeneratorFuel_enough (fuel1 : nat) :
  forall (fuel2 : nat) (sceneNode : list SceneNode) (indentLevel : nat),
    nodesHeight sceneNode <= fuel1 ->
    nodesHeight sceneNode <= fuel2 ->
    widgetGeneratorFuel fuel1 sceneNode indentLevel
    = widgetGeneratorFuel fuel2 sceneNode indentLevel.
Proof.
  induction fuel1 as [|fuel1 IH]; intros fuel2 sceneNode indentLevel H1 H2.
  - assert (sceneNode = []) as -> by (apply nodesHeight_zero; lia).
    destruct fuel2; reflexivity.
  - destruct fuel2 as [|fuel2].
    + assert (sceneNode = []) as -> by (apply nodesHeight_zero; lia).
      reflexivity.
    + cbn [Swiftui.widgetGeneratorFuel]. apply widgetGeneratorBody_ext.
      intros node Hn l k Hl.
      pose proof (nodesHeight_In _ _ Hn) as Hh.
      rewrite nodeHeight_children in Hh.
      pose proof (nodesHeight_incl _ _ Hl).
      apply IH; lia.
Qed.

(** The walker satisfies the recursive equation of the source: it is the
    loop body run with the walker itself as the recursive call. *)
Lemma swiftuiWidgetGenerator_unfold (sceneNode : list SceneNode) (indentLevel : nat) :
  swiftuiWidgetGenerator sceneNode indentLevel
  = widgetGeneratorBody swiftuiWidgetGenerator sceneNode indentLevel.
Proof.
  unfold Swiftui.swiftuiWidgetGenerator at 1.
  destruct (nodesHeight sceneNode) as [|fuel] eqn:E.
  - apply nodesHeight_zero in E. subst. reflexivity.
  - cbn [Swiftui.widgetGeneratorFuel]. apply widgetGeneratorBody_ext.
    intros node Hn l k Hl. unfold Swiftui.swiftuiWidgetGenerator.
    pose proof (nodesHeight_In _ _ Hn) as Hh.
    rewrite nodeHeight_children in Hh.
    pose proof (nodesHeight_incl _ _ Hl).
    apply widgetGeneratorFuel_enough; lia.
Qed.

End WalkerFacts.

(** ** Chunking *)

Lemma length_append (s1 s2 : string) :
  String.length (s1 ++ s2) = String.length s1 + String.length s2.
Proof.
  induction s1 as [|c s1 IH]; simpl; [reflexivity | now rewrite IH].
Qed.

Lemma concat_nosep_cons (x : string) (l : list string) :
  String.concat "" (x :: l) = x ++ String.concat "" l.
Proof.
  destruct l as [|y l]; [cbn; now rewrite append_nil_r | reflexivity].
Qed.

Lemma chunksFuel_concat {A : Type} (n : nat) :
  0 < n ->
  forall (fuel : nat) (l : list A),
    List.length l <= fuel -> List.concat (Design.chunksFuel fuel n l) = l.
Proof.
  intros Hn. induction fuel as [|fuel IH]; intros l Hl.
  - destruct l; [reflexivity | simpl in Hl; lia].
  - destruct l as [|x l]; [reflexivity|].
    cbn [Design.chunksFuel List.concat]. rewrite IH.
    + apply firstn_skipn.
    + rewrite length_skipn. cbn [List.length] in *. lia.
Qed.

Lemma chunksFuel_sizes {A : Type} (n fuel : nat) :
  forall l : list A,
    map (@List.length A) (Design.chunksFuel fuel n l)
    = Design.chunkSizes fuel n (List.length l).
Proof.
  induction fuel as [|fuel IH]; intros l; [reflexivity|].
  destruct l as [|x l]; [reflexivity|].
  cbn [Design.chunksFuel Design.chunkSizes map List.length].
  now rewrite IH, length_firstn, length_skipn.
Qed.

(** No chunk is empty, none is longer than [n]. *)
Lemma chunksFuel_bounds {A : Type} (n fuel : nat) :
  0 < n ->
  forall l : list A,
    Forall (fun c => 1 <= List.length c <= n) (Design.chunksFuel fuel n l).
Proof.
  intros Hn. induction fuel as [|fuel IH]; intros l; [constructor|].
  destruct l as [|x l]; [constructor|].
  cbn [Design.chunksFuel]. constructor; [|apply IH].
  rewrite length_firstn. cbn [List.length]. lia.
Qed.

Section ChunkingFacts.

Variable g : list SceneNode -> nat -> string.

(** The [for] loop emits one group per chunk of what is left from [i] on. *)
Lemma chunkLoop_chunks (slicedChildren : list SceneNode) (indentLevel : nat) :
  forall (steps i : nat) (strBuilder : string),
    Swiftui.chunkLoop g steps slicedChildren indentLevel i
                      (List.length slicedChildren) strBuilder
    = strBuilder
      ++ String.concat ""
           (map (Design.groupOf g indentLevel)
                (Design.chunksFuel steps 10 (skipn i slicedChildren))).
Proof.
  induction steps as [|steps IH]; intros i sb.
  - simpl. now rewrite append_nil_r.
  - cbn [Swiftui.chunkLoop Design.chunksFuel].
    rewrite skipn_nil_length.
    destruct (skipn i slicedChildren) as [|x rest] eqn:E.
    + simpl. now rewrite append_nil_r.
    + rewrite IH. cbn [map]. rewrite concat_nosep_cons.
      unfold slice, Swiftui.chunk, Design.groupOf.
      replace (i + 10 - i) with 10 by lia.
      replace (i + 10) with (10 + i) by lia.
      rewrite <- skipn_skipn, E. now rewrite !append_assoc.
Qed.

(** The loop is over within [j - i] steps, ten children at a time: steps
    beyond those change nothing. *)
Lemma chunkLoop_enough (slicedChildren : list SceneNode) (indentLevel j : nat) :
  forall (steps extra i : nat) (strBuilder : string),
    j - i <= steps * 10 ->
    Swiftui.chunkLoop g (steps + extra) slicedChildren indentLevel i j strBuilder
    = Swiftui.chunkLoop g steps slicedChildren indentLevel i j strBuilder.
Proof.
  induction steps as [|steps IH]; intros extra i sb H.
  - destruct extra as [|extra]; [reflexivity|]. cbn [Nat.add Swiftui.chunkLoop].
    now replace (i <? j) with false by (symmetry; apply Nat.ltb_ge; lia).
  - cbn [Nat.add Swiftui.chunkLoop]. destruct (i <? j); [|reflexivity].
    apply IH. unfold Swiftui.chunk. lia.
Qed.

(** From ten children on, the output is the chunked one. *)
Lemma widgetGeneratorWithLimits_chunkedOutput (node : SceneNode) (indentLevel : nat) :
  10 <= List.length (children node) ->
  Swiftui.widgetGeneratorWithLimits g node indentLevel
  = Design.chunkedOutput g node indentLevel.
Proof.
  intros H. unfold Swiftui.widgetGeneratorWithLimits, Design.chunkedOutput.
  replace (List.length (children node) <? 10) with false
    by (symmetry; apply Nat.ltb_ge; exact H).
  unfold slice. cbn [skipn]. replace (100 - 0) with 100 by lia.
  rewrite chunkLoop_chunks. cbn [skipn]. unfold Design.chunksOf.
  destruct (100 <? List.length (children node)); reflexivity.
Qed.

(** Below ten children nothing is grouped. *)
Lemma widgetGeneratorWithLimits_standard (node : SceneNode) (indentLevel : nat) :
  List.length (children node) < 10 ->
  Swiftui.widgetGeneratorWithLimits g node indentLevel
  = g (children node) indentLevel.
Proof.
  intros H. unfold Swiftui.widgetGeneratorWithLimits.
  now replace (List.length (children node) <? 10) with true
    by (symmetry; apply Nat.ltb_lt; exact H).
Qed.

End ChunkingFacts.

(** C1 (as amended).  A container with at least ten children is rendered
    as the truncation comment (only above a hundred children) followed by
    one [Group] per chunk; the chunks are consecutive, in order, at most ten
    long and never empty, and together they are the first hundred children.
    With 25 children there are three groups, of 10, 10 and 5 children; with
    150 there are ten groups of 10, after exactly one truncation comment. *)
Theorem widgetGeneratorWithLimits_chunks
        (host : Swiftui.Host) (settings : Swiftui.PluginSettings)
        (node : SceneNode) (indentLevel : nat) :
  10 <= List.length (children node) ->
  let generator := Swiftui.swiftuiWidgetGenerator host settings in
  let groups := Design.chunksOf 10 (firstn 100 (children node)) in
  let output := Swiftui.widgetGeneratorWithLimits generator node indentLevel in
  output
  = (if 100 <? List.length (children node) then Swiftui.truncationWarning else "")
    ++ String.concat "" (map (Design.groupOf generator indentLevel) groups)
  /\ List.concat groups = firstn 100 (children node)
  /\ Forall (fun c => 1 <= List.length c <= 10) groups
  /\ (List.length (children node) = 25 ->
      map (@List.length SceneNode) groups = [10; 10; 5]
      /\ List.concat groups = children node
      /\ output = String.concat "" (map (Design.groupOf generator indentLevel) groups))
  /\ (List.length (children node) = 150 ->
      map (@List.length SceneNode) groups = [10; 10; 10; 10; 10; 10; 10; 10; 10; 10]
      /\ output
         = Swiftui.truncationWarning
           ++ String.concat "" (map (Design.groupOf generator indentLevel) groups)).
Proof.
  intros H generator groups output.
  assert (Hout : output = Design.chunkedOutput generator node indentLevel)
    by (apply widgetGeneratorWithLimits_chunkedOutput; exact H).
  assert (Hcat : List.concat groups = firstn 100 (children node))
    by (apply chunksFuel_concat; lia).
  assert (Hlen : map (@List.length SceneNode) groups
                 = Design.chunkSizes (Nat.min 100 (List.length (children node))) 10
                                     (Nat.min 100 (List.length (children node)))).
  { unfold groups, Design.chunksOf. now rewrite chunksFuel_sizes, length_firstn. }
  repeat split.
  - exact Hout.
  - exact Hcat.
  - apply chunksFuel_bounds. lia.
  - rewrite Hlen, H0. reflexivity.
  - rewrite Hcat. apply firstn_all2. lia.
  - rewrite Hout. unfold Design.chunkedOutput. now rewrite H0.
  - rewrite Hlen, H0. reflexivity.
  - rewrite Hout. unfold Design.chunkedOutput. now rewrite H0.
Qed.

Lemma widgetGeneratorWithLimits_chunks_witness :
  map (@List.length SceneNode)
      (Design.chunksOf 10 (firstn 100 (children (Sample.groupOfSize 25))))
  = [10; 10; 5]
  /\ map (@List.length SceneNode)
         (Design.chunksOf 10 (firstn 100 (children (Sample.groupOfSize 150))))
     = [10; 10; 10; 10; 10; 10; 10; 10; 10; 10].
Proof.
  split.
  - refine (proj1 (proj1 (proj2 (proj2 (proj2
      (widgetGeneratorWithLimits_chunks Sample.swiftuiHost Sample.snippet
         (Sample.groupOfSize 25) 0 _)))) _)).
    + apply Nat.leb_le. reflexivity.
    + reflexivity.
  - refine (proj1 (proj2 (proj2 (proj2 (proj2
      (widgetGeneratorWithLimits_chunks Sample.swiftuiHost Sample.snippet
         (Sample.groupOfSize 150) 0 _)))) _)).
    + apply Nat.leb_le. reflexivity.
    + reflexivity.
Defined.

(** C1 (as stated) fails below ten children: three rectangles are rendered
    one after the other, in no [Group] at all. *)
Lemma widgetGeneratorWithLimits_not_always_chunked :
  Swiftui.widgetGeneratorWithLimits Sample.generator (Sample.groupOfSize 3) 0
  = "Rectangle()" ++ nl ++ "Rectangle()" ++ nl ++ "Rectangle()"
  /\ Design.chunkedOutput Sample.generator (Sample.groupOfSize 3) 0
     = nl ++ "Group {Rectangle()" ++ nl ++ "Rectangle()" ++ nl ++ "Rectangle()" ++ nl ++ "}"
  /\ Swiftui.widgetGeneratorWithLimits Sample.generator (Sample.groupOfSize 3) 0
     <> Design.chunkedOutput Sample.generator (Sample.groupOfSize 3) 0.
Proof.
  repeat split; try reflexivity.
  vm_compute. discriminate.
Qed.

(** C10.  A container with exactly ten children takes the chunking path:
    its output is one [Group] around the ten children, and it is not the
    ungrouped output of the walker. *)
Theorem widgetGeneratorWithLimits_ten_children
        (host : Swiftui.Host) (settings : Swiftui.PluginSettings)
        (node : SceneNode) (indentLevel : nat) :
  List.length (children node) = 10 ->
  let generator := Swiftui.swiftuiWidgetGenerator host settings in
  Design.chunksOf 10 (firstn 100 (children node)) = [children node]
  /\ Swiftui.widgetGeneratorWithLimits generator node indentLevel
     = nl ++ "Group {" ++ generator (children node) indentLevel ++ nl ++ "}"
  /\ Swiftui.widgetGeneratorWithLimits generator node indentLevel
     <> generator (children node) indentLevel.
Proof.
  intros H generator.
  assert (Hc : Design.chunksOf 10 (firstn 100 (children node)) = [children node]).
  { rewrite firstn_all2 by lia. unfold Design.chunksOf. rewrite H.
    destruct (children node) as [|x l] eqn:E; [discriminate|].
    cbn [Design.chunksFuel]. rewrite <- H at 1 2.
    rewrite firstn_all, skipn_all. reflexivity. }
  assert (Ho : Swiftui.widgetGeneratorWithLimits generator node indentLevel
               = nl ++ "Group {" ++ generator (children node) indentLevel ++ nl ++ "}").
  { rewrite widgetGeneratorWithLimits_chunkedOutput by lia.
    unfold Design.chunkedOutput. rewrite Hc, H. reflexivity. }
  repeat split; [exact Hc | exact Ho |].
  rewrite Ho. intros Heq. apply (f_equal String.length) in Heq.
  rewrite !length_append in Heq. cbn in Heq. lia.
Qed.

Lemma widgetGeneratorWithLimits_ten_children_witness :
  Swiftui.widgetGeneratorWithLimits Sample.generator (Sample.groupOfSize 10) 0
  = nl ++ "Group {" ++ Sample.generator (children (Sample.groupOfSize 10)) 0 ++ nl ++ "}".
Proof.
  refine (proj1 (proj2
    (widgetGeneratorWithLimits_ten_children Sample.swiftuiHost Sample.snippet
       (Sample.groupOfSize 10) 0 _))).
  reflexivity.
Defined.

(** ** The walker, unit by unit *)

Lemma filter_all {A : Type} (f : A -> bool) (l : list A) :
  (forall x, In x l -> f x = true) -> filter f l = l.
Proof.
  induction l as [|x l IH]; intros H; [reflexivity|].
  simpl. rewrite (H x (or_introl eq_refl)). f_equal. apply IH.
  intros y Hy. apply H. now right.
Qed.

Lemma join_nl_empty (l : list string) :
  join nl l = "" <-> l = [] \/ l = [""].
Proof.
  split.
  - destruct l as [|x [|y l]]; intros H.
    + now left.
    + right. cbn in H. now subst.
    + rewrite join_cons2 in H. apply append_eq_nil in H. destruct H as [_ H].
      discriminate H.
  - intros [-> | ->]; reflexivity.
Qed.

(** X20.  The fragment is the units of the visible nodes, one per node and
    in order, joined by the separator.  A kind without renderer has the
    empty unit; when every visible node has a renderer the fragment is the
    documented one. *)
Theorem swiftuiWidgetGenerator_units
        (host : Swiftui.Host) (settings : Swiftui.PluginSettings)
        (sceneNode : list SceneNode) (indentLevel : nat) :
  let generator := Swiftui.swiftuiWidgetGenerator host settings in
  let unit := fun node => Swiftui.renderNode host settings generator node indentLevel in
  generator sceneNode indentLevel = join nl (map unit (filter visible sceneNode))
  /\ (forall node, Design.hasRenderer node = false -> unit node = "")
  /\ ((forall node, In node sceneNode -> visible node = true ->
                    Design.hasRenderer node = true) ->
      generator sceneNode indentLevel
      = Design.walkerAsDocumented (Swiftui.renderNode host settings generator)
                                  sceneNode indentLevel).
Proof.
  intros generator unit.
  assert (Hj : generator sceneNode indentLevel
               = join nl (map unit (filter visible sceneNode))).
  { unfold generator. rewrite swiftuiWidgetGenerator_unfold.
    apply widgetGeneratorBody_join. }
  split; [exact Hj | split].
  - intros node H. unfold unit, Swiftui.renderNode.
    unfold Design.hasRenderer in H. destruct (type node); try reflexivity; discriminate.
  - intros H. rewrite Hj. unfold Design.walkerAsDocumented.
    rewrite (filter_all Design.hasRenderer (filter visible sceneNode)); [reflexivity|].
    intros node Hn. apply filter_In in Hn. now apply H.
Qed.

Lemma swiftuiWidgetGenerator_units_witness :
  Sample.unitOf Sample.vector 0 = ""
  /\ Sample.generator [Sample.rectangle; Sample.hidden; Sample.text] 0
     = Design.walkerAsDocumented Sample.unitOf
         [Sample.rectangle; Sample.hidden; Sample.text] 0.
Proof.
  split.
  - refine (proj1 (proj2
      (swiftuiWidgetGenerator_units Sample.swiftuiHost Sample.snippet [] 0))
      Sample.vector _).
    reflexivity.
  - refine (proj2 (proj2
      (swiftuiWidgetGenerator_units Sample.swiftuiHost Sample.snippet
         [Sample.rectangle; Sample.hidden; Sample.text] 0)) _).
    intros node [<- | [<- | [<- | []]]] Hv; solve [reflexivity | discriminate Hv].
Defined.

(** C5.  The walker does not do what the claim says for a kind without
    renderer: of a rectangle followed by a vector, both visible, the vector
    is skipped, but the separator written after the rectangle stays, at the
    end of the fragment, where the documented walker (one unit per rendered
    node, no trailing separator) has none. *)
Lemma swiftuiWidgetGenerator_skipped_node_keeps_separator :
  Sample.generator [Sample.rectangle; Sample.vector] 0 = "Rectangle()" ++ nl
  /\ Design.walkerAsDocumented Sample.unitOf [Sample.rectangle; Sample.vector] 0
     = "Rectangle()"
  /\ Sample.generator [Sample.rectangle; Sample.vector] 0
     <> Design.walkerAsDocumented Sample.unitOf [Sample.rectangle; Sample.vector] 0.
Proof.
  repeat split; try reflexivity.
  vm_compute. discriminate.
Qed.

(** ** The entry point *)

(** C6.  In snippet mode the entry point returns the walker's fragment as it
    is: the [switch] has returned before the statement that removes the
    leading newline, so a text node at the root keeps it. *)
Theorem swiftuiMain_snippet_keeps_leading_newline :
  (forall (host : Swiftui.Host) (optimize : bool) (sceneNode : list SceneNode),
      let settings := {| Swiftui.swiftUIGenerationMode := "snippet";
                         Swiftui.optimizeLayout := optimize |} in
      Swiftui.swiftuiMain host sceneNode settings
      = Swiftui.Returns (Swiftui.swiftuiWidgetGenerator host settings sceneNode 0))
  /\ Swiftui.swiftuiMain Sample.swiftuiHost [Sample.text] Sample.snippet
     = Swiftui.Returns (nl ++ "Text(" ++ dquote ++ "Hi" ++ dquote ++ ")")
  /\ startsWith nl (nl ++ "Text(" ++ dquote ++ "Hi" ++ dquote ++ ")") = true.
Proof.
  repeat split; reflexivity.
Qed.

(** C8 (as amended).  A node of no positive width or height gets none of
    its own shape and modifiers: the container renderer hands back the stack
    it was given (nothing at all when the node lacks [layoutAlign] or
    [opacity]).  For a rectangle or an ellipse the stack is empty, so the
    node leaves nothing. *)
Theorem swiftuiContainer_nonpositive_size
        (host : Swiftui.Host) (settings : Swiftui.PluginSettings)
        (node : SceneNode) (indentLevel : nat) (stack : string) :
  (width node <= 0 \/ height node <= 0)%Q ->
  Swiftui.swiftuiContainer host settings node indentLevel stack
  = (if isSome (layoutAlign node) && isSome (opacity node) then stack else "")
  /\ (forall g, type node = RECTANGLE \/ type node = ELLIPSE ->
                Swiftui.renderNode host settings g node indentLevel = "").
Proof.
  intros H.
  assert (Hb : Qle_bool (width node) 0 || Qle_bool (height node) 0 = true).
  { apply orb_true_iff. destruct H as [H | H]; [left | right];
      now apply Qle_bool_iff. }
  assert (Hc : forall s, Swiftui.swiftuiContainer host settings node indentLevel s
                         = (if isSome (layoutAlign node) && isSome (opacity node)
                            then s else "")).
  { intros s. unfold Swiftui.swiftuiContainer. rewrite Hb.
    destruct (layoutAlign node), (opacity node); reflexivity. }
  split; [apply Hc|].
  intros g [Ht | Ht]; unfold Swiftui.renderNode; rewrite Ht, Hc;
    destruct (isSome (layoutAlign node) && isSome (opacity node)); reflexivity.
Qed.

Lemma swiftuiContainer_nonpositive_size_witness :
  Swiftui.swiftuiContainer Sample.swiftuiHost Sample.snippet
    (Sample.sceneNode ELLIPSE 0 10 []) 0 "" = "".
Proof.
  refine (proj1 (swiftuiContainer_nonpositive_size Sample.swiftuiHost Sample.snippet
                   (Sample.sceneNode ELLIPSE 0 10 []) 0 "" _)).
  left. apply Qle_bool_iff. reflexivity.
Defined.

(** C8 (as stated) fails for a group: its width is 0, and its children are
    rendered all the same, inside the stack of the group. *)
Lemma swiftuiContainer_flat_group_not_suppressed :
  (width Sample.flatGroup <= 0)%Q
  /\ Sample.unitOf Sample.flatGroup 0 = nl ++ "ZStack {Rectangle()" ++ nl ++ "}"
  /\ Sample.unitOf Sample.flatGroup 0 <> "".
Proof.
  repeat split.
  - apply Qle_bool_iff. reflexivity.
  - vm_compute. discriminate.
Qed.

(** C9 (as amended).  In snippet mode the empty root sequence gives the
    empty output, and so does every root sequence with no visible node, or
    with one visible node of empty unit, and no other.  In struct and in
    preview mode a root sequence that is not empty never gives the empty
    output. *)
Theorem swiftuiMain_empty_output
        (host : Swiftui.Host) (optimize : bool) (sceneNode : list SceneNode) :
  let settings := {| Swiftui.swiftUIGenerationMode := "snippet";
                     Swiftui.optimizeLayout := optimize |} in
  let unit := fun node =>
                Swiftui.renderNode host settings
                  (Swiftui.swiftuiWidgetGenerator host settings) node 0 in
  Swiftui.swiftuiMain host [] settings = Swiftui.Returns ""
  /\ (Swiftui.swiftuiMain host sceneNode settings = Swiftui.Returns ""
      <-> filter visible sceneNode = []
          \/ exists node, filter visible sceneNode = [node] /\ unit node = "")
  /\ (forall node rest,
         Swiftui.swiftuiMain host (node :: rest)
           {| Swiftui.swiftUIGenerationMode := "struct";
              Swiftui.optimizeLayout := optimize |} <> Swiftui.Returns "")
  /\ (forall node rest,
         Swiftui.swiftuiMain host (node :: rest)
           {| Swiftui.swiftUIGenerationMode := "preview";
              Swiftui.optimizeLayout := optimize |} <> Swiftui.Returns "").
Proof.
  intros settings unit. split; [reflexivity|]. split; [|split].
  - change (Swiftui.swiftuiMain host sceneNode settings)
      with (Swiftui.Returns (Swiftui.swiftuiWidgetGenerator host settings sceneNode 0)).
    rewrite swiftuiWidgetGenerator_unfold, widgetGeneratorBody_join.
    fold unit. split.
    + intros H. injection H as H. apply join_nl_empty in H.
      destruct (filter visible sceneNode) as [|x [|y l]]; cbn in H.
      * now left.
      * right. exists x. split; [reflexivity|]. destruct H as [H | H]; congruence.
      * destruct H as [H | H]; discriminate H.
    + intros [H | (node & H & Hu)]; rewrite H; cbn; [reflexivity | now rewrite Hu].
  - intros node rest. cbn. discriminate.
  - intros node rest. cbn. discriminate.
Qed.

(** C9 (as stated) fails: a root sequence of one hidden rectangle is not
    empty, and its output is. *)
Lemma swiftuiMain_empty_output_of_hidden_root :
  [Sample.hidden] <> []
  /\ Swiftui.swiftuiMain Sample.swiftuiHost [Sample.hidden] Sample.snippet
     = Swiftui.Returns "".
Proof.
  split; [discriminate | reflexivity].
Qed.

(** ** Stack spacing *)

(** C7 (as amended).  The spacing is the measured one unless it rounds to
    16; then it is 16, at most one half away from the measured spacing, and
    equal to it when the measured spacing is 16. *)
Theorem getSpacing_default (layout : inferredAutoLayoutResult) :
  (Math_round (itemSpacing layout) <> 16%Z ->
   Swiftui.getSpacing layout = itemSpacing layout)
  /\ (Math_round (itemSpacing layout) = 16%Z ->
      Swiftui.getSpacing layout = 16%Q
      /\ (16 - (1 # 2) <= itemSpacing layout)%Q
      /\ (itemSpacing layout < 16 + (1 # 2))%Q)
  /\ ((itemSpacing layout == 16)%Q ->
      (Swiftui.getSpacing layout == itemSpacing layout)%Q).
Proof.
  unfold Swiftui.getSpacing, Swiftui.defaultSpacing.
  split; [|split].
  - intros H. apply Z.eqb_neq in H. now rewrite H.
  - intros H. rewrite H. split; [reflexivity|].
    unfold Math_round in H.
    pose proof (Qfloor_le (itemSpacing layout + (1 # 2))) as Hlo.
    pose proof (Qlt_floor (itemSpacing layout + (1 # 2))) as Hhi.
    rewrite H in Hlo, Hhi.
    change (inject_Z 16) with 16%Q in Hlo.
    change (inject_Z (16 + 1)) with 17%Q in Hhi.
    split; lra.
  - intros H.
    assert (Hr : Math_round (itemSpacing layout) = 16%Z).
    { unfold Math_round. rewrite (Qfloor_comp _ (16 + (1 # 2))%Q); [reflexivity|].
      now rewrite H. }
    rewrite Hr. cbn. now rewrite H.
Qed.

Lemma getSpacing_default_witness :
  Swiftui.getSpacing (Sample.layoutWithSpacing 8) = 8%Q
  /\ Swiftui.getSpacing (Sample.layoutWithSpacing (65 # 4)) = 16%Q
  /\ (Swiftui.getSpacing (Sample.layoutWithSpacing 16) == 16)%Q.
Proof.
  split; [|split].
  - refine (proj1 (getSpacing_default (Sample.layoutWithSpacing 8)) _).
    vm_compute. discriminate.
  - refine (proj1 (proj1 (proj2 (getSpacing_default (Sample.layoutWithSpacing (65 # 4)))) _)).
    reflexivity.
  - refine (proj2 (proj2 (getSpacing_default (Sample.layoutWithSpacing 16))) _).
    reflexivity.
Defined.

(** C7 (as stated) fails: a measured spacing of 16.25 rounds to 16, and the
    16 that is emitted is not 16.25. *)
Lemma getSpacing_not_identical :
  Math_round (itemSpacing (Sample.layoutWithSpacing (65 # 4))) = 16%Z
  /\ ~ (Swiftui.getSpacing (Sample.layoutWithSpacing (65 # 4))
        == itemSpacing (Sample.layoutWithSpacing (65 # 4)))%Q.
Proof.
  split; [reflexivity|]. vm_compute. discriminate.
Qed.

(** ** The HTML builder *)

Lemma styles_addStyles (this : Html.HtmlDefaultBuilder) (newStyles : list string) :
  Html.styles (Html.addStyles this newStyles)
  = (Html.styles this ++ filter truthy newStyles)%list.
Proof. reflexivity. Qed.

Lemma isJSX_addStyles (this : Html.HtmlDefaultBuilder) (newStyles : list string) :
  Html.isJSX (Html.addStyles this newStyles) = Html.isJSX this.
Proof. reflexivity. Qed.

Lemma node_addStyles (this : Html.HtmlDefaultBuilder) (newStyles : list string) :
  Html.node (Html.addStyles this newStyles) = Html.node this.
Proof. reflexivity. Qed.

(** C2.  After the corner radius, the border step adds nothing for a uniform
    weight of 0, the one shorthand [border] for another uniform weight, and
    for weights given edge by edge one declaration per edge of non-zero
    weight, in the order left, top, right, bottom.  ([formatWithJSX] never
    gives the empty string.) *)
Theorem border_declarations
        (host : Html.Host) (this : Html.HtmlDefaultBuilder) (node : SceneNode) :
  (forall property jsx value, Html.formatWithJSX host property jsx value <> "") ->
  let radius := filter truthy (Html.htmlBorderRadius host node (Html.isJSX this)) in
  let color := Html.htmlColorFromFills host (strokes node) in
  let borderStyle :=
    if 0 <? List.length (dashPattern node) then "dotted" else "solid" in
  let declaration := fun (property : string) (weight : Q) =>
    Html.formatWithJSX host property (Html.isJSX this)
      (Html.consolidateBorders host color borderStyle weight) in
  (forall all, Html.commonStroke host node = Some (Html.BorderAll all) ->
               (all == 0)%Q ->
               Html.styles (Html.border host this node)
               = (Html.styles this ++ radius)%list)
  /\ (forall all, Html.commonStroke host node = Some (Html.BorderAll all) ->
                  ~ (all == 0)%Q ->
                  Html.styles (Html.border host this node)
                  = (Html.styles this ++ radius ++ [declaration "border" all])%list)
  /\ (forall leftW topW rightW bottomW,
         Html.commonStroke host node
         = Some (Html.BorderSides leftW topW rightW bottomW) ->
         Html.styles (Html.border host this node)
         = (Html.styles this ++ radius
            ++ map (fun e => declaration (fst e) (snd e))
                   (filter (fun e => negb (Qeq_bool (snd e) 0))
                           (Design.edges leftW topW rightW bottomW)))%list).
Proof.
  intros Hfmt. cbv zeta.
  assert (Ht : forall property jsx value,
             truthy (Html.formatWithJSX host property jsx value) = true)
    by (intros; apply truthy_true, Hfmt).
  split; [|split].
  - intros all Hc Hz. unfold Html.border. rewrite Hc.
    apply Qeq_bool_iff in Hz. rewrite Hz. reflexivity.
  - intros all Hc Hz. unfold Html.border. rewrite Hc.
    destruct (Qeq_bool all 0) eqn:E; [apply Qeq_bool_iff in E; contradiction|].
    rewrite !styles_addStyles, !isJSX_addStyles.
    cbn [filter]. rewrite Ht. now rewrite <- app_assoc.
  - intros leftW topW rightW bottomW Hc. unfold Html.border. rewrite Hc.
    unfold Design.edges. cbn [filter snd fst map].
    destruct (Qeq_bool leftW 0), (Qeq_bool topW 0),
             (Qeq_bool rightW 0), (Qeq_bool bottomW 0);
      cbn [negb map fst snd];
      rewrite ?styles_addStyles, ?isJSX_addStyles;
      cbn [filter]; rewrite ?Ht; rewrite <- ?app_assoc; cbn [app];
      rewrite ?app_nil_r; reflexivity.
Qed.

Lemma sample_formatWithJSX_nonempty (property : string) (jsx : bool) (value : string) :
  Html.formatWithJSX Sample.htmlHost property jsx value <> "".
Proof.
  destruct property; discriminate.
Qed.

Lemma border_declarations_witness :
  let builder := fun n => Html.constructor Sample.htmlHost n false false in
  Html.styles (Html.border Sample.htmlHost (builder (Sample.stroked 0 0 0 0))
                           (Sample.stroked 0 0 0 0)) = []
  /\ Html.styles (Html.border Sample.htmlHost (builder (Sample.stroked 2 2 2 2))
                              (Sample.stroked 2 2 2 2))
     = ["border: 2px black solid"]
  /\ Html.styles (Html.border Sample.htmlHost (builder (Sample.stroked 1 0 2 3))
                              (Sample.stroked 1 0 2 3))
     = ["border-left: 1px black solid"; "border-right: 2px black solid";
        "border-bottom: 3px black solid"].
Proof.
  intros builder. split; [|split].
  - refine (proj1 (border_declarations Sample.htmlHost
                     (builder (Sample.stroked 0 0 0 0)) (Sample.stroked 0 0 0 0)
                     sample_formatWithJSX_nonempty) 0%Q _ _); reflexivity.
  - refine (proj1 (proj2 (border_declarations Sample.htmlHost
                     (builder (Sample.stroked 2 2 2 2)) (Sample.stroked 2 2 2 2)
                     sample_formatWithJSX_nonempty)) 2%Q _ _);
      [reflexivity | discriminate].
  - refine (proj2 (proj2 (border_declarations Sample.htmlHost
                     (builder (Sample.stroked 1 0 2 3)) (Sample.stroked 1 0 2 3)
                     sample_formatWithJSX_nonempty)) 1%Q 0%Q 2%Q 3%Q _).
    reflexivity.
Defined.

(** C3.  What [build] serializes is the accumulated declarations, trimmed,
    less those of property [width] when the horizontal sizing is not FIXED
    and those of property [height] when the vertical sizing is not FIXED.
    For a node that is FIXED across and HUG down, whatever its height, that
    is every declaration but those of property [height]. *)
Theorem build_drops_unfixed_sizes
        (this : Html.HtmlDefaultBuilder) (additionalStyle : list string) :
  let accumulated := map trim (Html.styles (Html.addStyles this additionalStyle)) in
  let serialized := Html.build_formattedStylesFiltered this additionalStyle in
  (forall s, In s serialized
             <-> In s accumulated
                 /\ (Html.styleProp s = "width" ->
                     layoutSizingHorizontal (Html.node this) = FIXED)
                 /\ (Html.styleProp s = "height" ->
                     layoutSizingVertical (Html.node this) = FIXED))
  /\ (layoutSizingHorizontal (Html.node this) = FIXED ->
      layoutSizingVertical (Html.node this) = HUG ->
      serialized
      = filter (fun s => negb (Html.styleProp s =? "height")%string) accumulated
      /\ (forall s, In s accumulated -> Html.styleProp s = "width" -> In s serialized)
      /\ (forall s, In s serialized -> Html.styleProp s <> "height"))
  /\ (0 < List.length (Html.styles (Html.addStyles this additionalStyle)) ->
      Html.build_formattedStyle this additionalStyle
      = if Html.isJSX this
        then " style={{" ++ join ", " serialized ++ "}}"
        else " style=" ++ dquote ++ join "; " serialized ++ dquote).
Proof.
  intros accumulated serialized.
  assert (Hkeep : forall s,
             Html.keepStyle (Html.addStyles this additionalStyle) s = true
             <-> (Html.styleProp s = "width" ->
                  layoutSizingHorizontal (Html.node this) = FIXED)
                 /\ (Html.styleProp s = "height" ->
                     layoutSizingVertical (Html.node this) = FIXED)).
  { intros s. unfold Html.keepStyle. rewrite node_addStyles.
    destruct (String.eqb_spec (Html.styleProp s) "width") as [Ew | Ew].
    - split.
      + intros H. split.
        * intros _. destruct (layoutSizingHorizontal (Html.node this));
            solve [reflexivity | discriminate H].
        * intros Eh. rewrite Ew in Eh. discriminate Eh.
      + intros [H _]. rewrite (H Ew). reflexivity.
    - destruct (String.eqb_spec (Html.styleProp s) "height") as [Eh | Eh].
      + split.
        * intros H. split; [intros E; contradiction|].
          intros _. destruct (layoutSizingVertical (Html.node this));
            solve [reflexivity | discriminate H].
        * intros [_ H]. rewrite (H Eh). reflexivity.
      + split; [intros _; split; intros; contradiction | reflexivity]. }
  split; [|split].
  - intros s. unfold serialized, Html.build_formattedStylesFiltered.
    rewrite filter_In, Hkeep. reflexivity.
  - intros Hh Hv.
    assert (Heq : serialized
                  = filter (fun s => negb (Html.styleProp s =? "height")%string)
                           accumulated).
    { unfold serialized, Html.build_formattedStylesFiltered.
      apply filter_ext. intros s. unfold Html.keepStyle. rewrite node_addStyles, Hh, Hv.
      destruct (String.eqb_spec (Html.styleProp s) "width") as [Ew | Ew].
      - rewrite Ew. reflexivity.
      - destruct (Html.styleProp s =? "height")%string; reflexivity. }
    split; [exact Heq | split].
    + intros s Hs Hw. rewrite Heq. apply filter_In. split; [exact Hs|].
      rewrite Hw. reflexivity.
    + intros s Hs. rewrite Heq in Hs. apply filter_In in Hs. destruct Hs as [_ Hs].
      intros E. rewrite E in Hs. discriminate Hs.
  - intros Hlen. unfold Html.build_formattedStyle.
    apply Nat.ltb_lt in Hlen. rewrite Hlen, isJSX_addStyles. reflexivity.
Qed.

Lemma build_drops_unfixed_sizes_witness :
  Html.build_formattedStylesFiltered Sample.sizedBuilder []
  = ["width: 10px"; "background: black"]
  /\ Html.build_formattedStyle Sample.sizedBuilder []
     = " style=" ++ dquote ++ "width: 10px; background: black" ++ dquote.
Proof.
  split.
  - refine (proj1 (proj1 (proj2
      (build_drops_unfixed_sizes Sample.sizedBuilder [])) _ _));
      reflexivity.
  - refine (proj2 (proj2
      (build_drops_unfixed_sizes Sample.sizedBuilder [])) _).
    apply Nat.ltb_lt. reflexivity.
Defined.

Lemma filter_map_swap {A B : Type} (f : A -> B) (p : B -> bool) (l : list A) :
  filter p (map f l) = map f (filter (fun x => p (f x)) l).
Proof.
  induction l as [|x l IH]; [reflexivity|].
  cbn [map filter]. destruct (p (f x)); cbn [map]; now rewrite IH.
Qed.

(** A paint has a segment exactly when its kind is rendered, as long as the
    gradient resolver gives no empty string. *)
Lemma paintStyle_truthy (host : Html.Host) :
  (forall paint, Html.isGradient paint = true ->
                 Html.htmlGradientFromFills host (PaintArray [paint]) <> "") ->
  forall paint, truthy (Html.paintStyle host paint) = Design.supportedPaint paint.
Proof.
  intros Hgrad paint. unfold Html.paintStyle, Design.supportedPaint.
  destruct (Html.isSOLID paint); [reflexivity|].
  destruct (Html.isGradient paint) eqn:Eg; [|reflexivity].
  apply truthy_true, Hgrad, Eg.
Qed.

(** C4.  The Mixed sentinel gives the empty string; a single solid paint
    gives its plain colour; two paints or more give the segments of the
    paints in their order, joined by [", "], where a solid paint is the
    two-stop gradient of its colour, a paint of another kind than solid and
    the three rendered gradients has no segment, and (the gradient resolver
    not giving the empty string) every supported paint has one. *)
Theorem buildBackgroundValues_composite (host : Html.Host) :
  Html.buildBackgroundValues host Mixed = ""
  /\ (forall paint, paintType paint = SOLID ->
        Html.buildBackgroundValues host (PaintArray [paint])
        = Html.htmlColorFromFills host (PaintArray [paint]))
  /\ (forall paints, 2 <= List.length paints ->
        Html.buildBackgroundValues host (PaintArray paints)
        = join ", " (filter truthy (map (Html.paintStyle host) paints)))
  /\ (forall paint, paintType paint = SOLID ->
        let color := Html.htmlColorFromFills host (PaintArray [paint]) in
        Html.paintStyle host paint
        = "linear-gradient(0deg, " ++ color ++ " 0%, " ++ color ++ " 100%)")
  /\ (forall paint, Design.supportedPaint paint = false ->
        Html.paintStyle host paint = "")
  /\ ((forall paint, Html.isGradient paint = true ->
         Html.htmlGradientFromFills host (PaintArray [paint]) <> "") ->
      forall paints, 2 <= List.length paints ->
        Html.buildBackgroundValues host (PaintArray paints)
        = join ", " (map (Html.paintStyle host)
                         (filter Design.supportedPaint paints))).
Proof.
  assert (Hgen : forall paints, 2 <= List.length paints ->
             Html.buildBackgroundValues host (PaintArray paints)
             = join ", " (filter truthy (map (Html.paintStyle host) paints))).
  { intros paints H. unfold Html.buildBackgroundValues.
    replace (List.length paints =? 1) with false
      by (symmetry; apply Nat.eqb_neq; lia).
    reflexivity. }
  split; [reflexivity|]. split; [|split; [exact Hgen|split; [|split]]].
  - intros paint H. unfold Html.buildBackgroundValues, Html.isSOLID. cbn.
    now rewrite H.
  - intros paint H. unfold Html.paintStyle, Html.isSOLID. now rewrite H.
  - intros paint H. unfold Design.supportedPaint in H.
    apply orb_false_iff in H. destruct H as [Hs Hg].
    unfold Html.paintStyle. now rewrite Hs, Hg.
  - intros Hgrad paints H. rewrite Hgen by exact H. f_equal.
    rewrite filter_map_swap. f_equal. apply filter_ext.
    apply paintStyle_truthy, Hgrad.
Qed.

Lemma sample_gradient_nonempty (paint : Paint) :
  Html.isGradient paint = true ->
  Html.htmlGradientFromFills Sample.htmlHost (PaintArray [paint]) <> "".
Proof.
  unfold Html.isGradient. cbn. destruct (paintType paint); discriminate.
Qed.

Lemma buildBackgroundValues_composite_witness :
  Html.buildBackgroundValues Sample.htmlHost (PaintArray [Sample.solid Sample.black])
  = "black"
  /\ Html.buildBackgroundValues Sample.htmlHost
       (PaintArray [Sample.solid Sample.black; Sample.paintOf GRADIENT_LINEAR;
                    Sample.paintOf IMAGE])
     = "linear-gradient(0deg, black 0%, black 100%), linear-gradient(90deg, black 0%, black 100%)".
Proof.
  split.
  - refine (proj1 (proj2 (buildBackgroundValues_composite Sample.htmlHost))
                  (Sample.solid Sample.black) _).
    reflexivity.
  - refine (proj2 (proj2 (proj2 (proj2 (proj2
      (buildBackgroundValues_composite Sample.htmlHost)))))
      sample_gradient_nonempty
      [Sample.solid Sample.black; Sample.paintOf GRADIENT_LINEAR;
       Sample.paintOf IMAGE] _).
    apply Nat.leb_le. reflexivity.
Defined.

(** * Further properties of the two files *)

(** ** The walker and the entry point *)

Lemma filter_idem {A : Type} (f : A -> bool) (l : list A) :
  filter f (filter f l) = filter f l.
Proof.
  apply filter_all. intros x Hx. apply filter_In in Hx. tauto.
Qed.

Lemma join_app (sep : string) (a c : list string) :
  a <> [] -> c <> [] -> join sep (a ++ c) = join sep a ++ sep ++ join sep c.
Proof.
  intros Ha Hc. induction a as [|x a IH]; [contradiction|].
  destruct a as [|y a].
  - destruct c as [|z c]; [contradiction | reflexivity].
  - change ((x :: y :: a) ++ c)%list with (x :: y :: (a ++ c))%list.
    rewrite !join_cons2.
    change (y :: (a ++ c))%list with ((y :: a) ++ c)%list.
    rewrite IH by discriminate. now rewrite !append_assoc.
Qed.

Lemma swiftuiWidgetGenerator_join
      (host : Swiftui.Host) (settings : Swiftui.PluginSettings)
      (sceneNode : list SceneNode) (indentLevel : nat) :
  Swiftui.swiftuiWidgetGenerator host settings sceneNode indentLevel
  = join nl (map (fun node =>
                    Swiftui.renderNode host settings
                      (Swiftui.swiftuiWidgetGenerator host settings) node indentLevel)
                 (filter visible sceneNode)).
Proof.
  rewrite swiftuiWidgetGenerator_unfold. apply widgetGeneratorBody_join.
Qed.

(** X1.  Hidden nodes leave no trace: a sibling sequence is rendered as the
    sequence of its visible nodes is. *)
Theorem swiftuiWidgetGenerator_visible_only
        (host : Swiftui.Host) (settings : Swiftui.PluginSettings)
        (sceneNode : list SceneNode) (indentLevel : nat) :
  Swiftui.swiftuiWidgetGenerator host settings sceneNode indentLevel
  = Swiftui.swiftuiWidgetGenerator host settings (filter visible sceneNode) indentLevel.
Proof.
  rewrite !swiftuiWidgetGenerator_join. now rewrite filter_idem.
Qed.

(** X2.  Two sibling sequences that each have a visible node are rendered
    as one: the fragment of the first, the separator, the fragment of the
    second.  A sequence without visible node adds nothing, not even a
    separator. *)
Theorem swiftuiWidgetGenerator_app
        (host : Swiftui.Host) (settings : Swiftui.PluginSettings)
        (first second : list SceneNode) (indentLevel : nat) :
  let generator := Swiftui.swiftuiWidgetGenerator host settings in
  (filter visible first <> [] -> filter visible second <> [] ->
   generator (first ++ second)%list indentLevel
   = generator first indentLevel ++ nl ++ generator second indentLevel)
  /\ (filter visible first = [] ->
      generator (first ++ second)%list indentLevel = generator second indentLevel)
  /\ (filter visible second = [] ->
      generator (first ++ second)%list indentLevel = generator first indentLevel).
Proof.
  intros generator. unfold generator.
  rewrite !swiftuiWidgetGenerator_join, filter_app, map_app.
  split; [|split].
  - intros H1 H2. apply join_app.
    + destruct (filter visible first); [contradiction | discriminate].
    + destruct (filter visible second); [contradiction | discriminate].
  - intros H. rewrite H. reflexivity.
  - intros H. rewrite H. cbn [map]. now rewrite app_nil_r.
Qed.

Lemma swiftuiWidgetGenerator_app_witness :
  Sample.generator ([Sample.rectangle] ++ [Sample.text])%list 0
  = Sample.generator [Sample.rectangle] 0 ++ nl ++ Sample.generator [Sample.text] 0
  /\ Sample.generator ([Sample.hidden] ++ [Sample.text])%list 0
     = Sample.generator [Sample.text] 0
  /\ Sample.generator ([Sample.text] ++ [Sample.hidden])%list 0
     = Sample.generator [Sample.text] 0.
Proof.
  split; [|split].
  - refine (proj1 (swiftuiWidgetGenerator_app Sample.swiftuiHost Sample.snippet
                     [Sample.rectangle] [Sample.text] 0) _ _); discriminate.
  - refine (proj1 (proj2 (swiftuiWidgetGenerator_app Sample.swiftuiHost Sample.snippet
                     [Sample.hidden] [Sample.text] 0)) _); reflexivity.
  - refine (proj2 (proj2 (swiftuiWidgetGenerator_app Sample.swiftuiHost Sample.snippet
                     [Sample.text] [Sample.hidden] 0)) _); reflexivity.
Defined.

(** X3.  The entry point raises exactly when the root sequence is empty and
    the mode is struct or preview, where the name of the first root node is
    read. *)
Theorem swiftuiMain_throws_iff
        (host : Swiftui.Host) (sceneNode : list SceneNode)
        (settings : Swiftui.PluginSettings) :
  Swiftui.swiftuiMain host sceneNode settings = Swiftui.Throws
  <-> sceneNode = []
      /\ (Swiftui.swiftUIGenerationMode settings = "struct"
          \/ Swiftui.swiftUIGenerationMode settings = "preview").
Proof.
  unfold Swiftui.swiftuiMain.
  destruct (String.eqb_spec (Swiftui.swiftUIGenerationMode settings) "snippet") as [E1 | E1].
  - split; [discriminate|]. intros [_ [H | H]]; rewrite H in E1; discriminate.
  - destruct (String.eqb_spec (Swiftui.swiftUIGenerationMode settings) "struct") as [E2 | E2].
    + destruct sceneNode; split; try discriminate; try tauto.
      intros [H _]. discriminate.
    + destruct (String.eqb_spec (Swiftui.swiftUIGenerationMode settings) "preview") as [E3 | E3].
      * destruct sceneNode; split; try discriminate; try tauto.
        intros [H _]. discriminate.
      * split; [discriminate | tauto].
Qed.

Lemma chunksFuel_count {A : Type} (fuel : nat) :
  forall l : list A,
    List.length l <= fuel ->
    List.length l <= 10 * List.length (Design.chunksFuel fuel 10 l)
    /\ 10 * List.length (Design.chunksFuel fuel 10 l) < List.length l + 10.
Proof.
  induction fuel as [|fuel IH]; intros l Hl.
  - destruct l; cbn [List.length] in *; cbn; lia.
  - destruct l as [|x l]; [cbn; lia|].
    cbn [Design.chunksFuel].
    change (List.length (firstn 10 (x :: l) :: Design.chunksFuel fuel 10 (skipn 10 (x :: l))))
      with (S (List.length (Design.chunksFuel fuel 10 (skipn 10 (x :: l))))).
    assert (Hs : List.length (skipn 10 (x :: l)) <= fuel)
      by (rewrite length_skipn; cbn [List.length] in *; lia).
    specialize (IH _ Hs). rewrite length_skipn in IH.
    cbn [List.length] in *. lia.
Qed.

(** X4.  From ten children on, the number of groups is the number of
    children, capped at a hundred, divided by ten and rounded up: at least
    one group, never more than ten. *)
Theorem widgetGeneratorWithLimits_group_count
        (host : Swiftui.Host) (settings : Swiftui.PluginSettings)
        (node : SceneNode) (indentLevel : nat) :
  10 <= List.length (children node) ->
  let generator := Swiftui.swiftuiWidgetGenerator host settings in
  let groups := Design.chunksOf 10 (firstn 100 (children node)) in
  let capped := Nat.min (List.length (children node)) 100 in
  Swiftui.widgetGeneratorWithLimits generator node indentLevel
  = (if 100 <? List.length (children node) then Swiftui.truncationWarning else "")
    ++ String.concat "" (map (Design.groupOf generator indentLevel) groups)
  /\ capped <= 10 * List.length groups
  /\ 10 * List.length groups < capped + 10
  /\ 1 <= List.length groups <= 10.
Proof.
  intros H generator groups capped.
  split; [apply widgetGeneratorWithLimits_chunkedOutput; exact H|].
  pose proof (chunksFuel_count (List.length (firstn 100 (children node)))
                (firstn 100 (children node)) (le_n _)) as [Hlo Hhi].
  fold (Design.chunksOf 10 (firstn 100 (children node))) in Hlo, Hhi.
  fold groups in Hlo, Hhi. rewrite length_firstn in Hlo, Hhi.
  unfold capped. lia.
Qed.

Lemma widgetGeneratorWithLimits_group_count_witness :
  1 <= List.length (Design.chunksOf 10 (firstn 100 (children (Sample.groupOfSize 25)))) <= 10.
Proof.
  refine (proj2 (proj2 (proj2
    (widgetGeneratorWithLimits_group_count Sample.swiftuiHost Sample.snippet
       (Sample.groupOfSize 25) 0 _)))).
  apply Nat.leb_le. reflexivity.
Defined.

(** X5.  Replacing a spacing by the default never changes the integer it
    rounds to. *)
Theorem getSpacing_same_rounding (layout : inferredAutoLayoutResult) :
  Math_round (Swiftui.getSpacing layout) = Math_round (itemSpacing layout).
Proof.
  unfold Swiftui.getSpacing, Swiftui.defaultSpacing.
  destruct (Z.eqb_spec (Math_round (itemSpacing layout)) 16) as [E | E];
    [|reflexivity].
  cbn [negb]. rewrite E. reflexivity.
Qed.

(** ** Text, stacks and templates *)

Lemma split_not_nil (c : ascii) (s : string) : split c s <> [].
Proof.
  destruct s as [|a r]; cbn [split]; [discriminate|].
  destruct (Ascii.eqb a c); [discriminate|].
  destruct (split c r); discriminate.
Qed.

(** [s.split(c).join(c)] is [s]. *)
Lemma join_split (c : ascii) (s : string) :
  join (String c "") (split c s) = s.
Proof.
  induction s as [|a r IH]; [reflexivity|].
  cbn [split]. destruct (Ascii.eqb_spec a c) as [-> | Hac].
  - pose proof (split_not_nil c r) as Hn.
    destruct (split c r) as [|h t]; [contradiction|].
    rewrite join_cons2, IH. reflexivity.
  - pose proof (split_not_nil c r) as Hn.
    destruct (split c r) as [|h t]; [contradiction|].
    rewrite <- IH. destruct t; reflexivity.
Qed.

Lemma join_split_escape (s : string) :
  join (backslash ++ "n") (split Derived.lineFeed s) = Derived.escapeLineBreaks s.
Proof.
  induction s as [|a r IH]; [reflexivity|].
  cbn [split Derived.escapeLineBreaks].
  pose proof (split_not_nil Derived.lineFeed r) as Hn.
  destruct (Ascii.eqb a Derived.lineFeed).
  - destruct (split Derived.lineFeed r) as [|h t]; [contradiction|].
    rewrite join_cons2, IH. reflexivity.
  - destruct (split Derived.lineFeed r) as [|h t]; [contradiction|].
    rewrite <- IH. destruct t; reflexivity.
Qed.

Lemma charsWithLineBreak_escape (text : string) :
  (if 1 <? List.length (split (ascii_of_nat 10) text)
   then join (backslash ++ "n") (split (ascii_of_nat 10) text)
   else text)
  = Derived.escapeLineBreaks text.
Proof.
  change (ascii_of_nat 10) with Derived.lineFeed.
  pose proof (join_split_escape text) as He.
  pose proof (join_split Derived.lineFeed text) as Hr.
  pose proof (split_not_nil Derived.lineFeed text) as Hn.
  destruct (split Derived.lineFeed text) as [|h [|h' t]]; [contradiction | |].
  - cbn in He, Hr. cbn [List.length Nat.ltb Nat.leb]. congruence.
  - exact He.
Qed.

Lemma escapeLineBreaks_no_lineFeed (s : string) :
  Derived.hasChar Derived.lineFeed (Derived.escapeLineBreaks s) = false.
Proof.
  induction s as [|a r IH]; [reflexivity|].
  cbn [Derived.escapeLineBreaks].
  destruct (Ascii.eqb a Derived.lineFeed) eqn:E.
  - change (Derived.hasChar Derived.lineFeed
              (backslash ++ "n" ++ Derived.escapeLineBreaks r))
      with (Derived.hasChar Derived.lineFeed (Derived.escapeLineBreaks r)).
    exact IH.
  - cbn [Derived.hasChar]. now rewrite E, IH.
Qed.

(** X6.  A text node is written as [Text("...")] around its characters in
    which every line feed is replaced by a backslash and an [n], nothing
    else being changed; no line feed of the characters reaches the string
    literal. *)
Theorem swiftuiText_line_breaks
        (host : Swiftui.Host) (settings : Swiftui.PluginSettings)
        (node : SceneNode) (indentLevel : nat) :
  Swiftui.swiftuiText host settings node indentLevel
  = Swiftui.indentString host
      (nl ++ "Text(" ++ dquote
          ++ Derived.escapeLineBreaks (Derived.casedText host node)
          ++ dquote ++ ")"
          ++ Swiftui.textBuilder host node (Swiftui.optimizeLayout settings))
      (Some indentLevel)
  /\ Derived.hasChar Derived.lineFeed
       (Derived.escapeLineBreaks (Derived.casedText host node)) = false.
Proof.
  split; [|apply escapeLineBreaks_no_lineFeed].
  unfold Swiftui.swiftuiText. fold (Derived.casedText host node).
  now rewrite charsWithLineBreak_escape.
Qed.

(** X7.  A stack without layout mode is a [ZStack] without properties.  A
    directional stack is an [HStack] or a [VStack] that always carries its
    spacing, and its alignment unless that is CENTER; when the properties
    take more than 60 code units they are written one per line, and the
    children follow the brace as they are, not indented. *)
Theorem createDirectionalStack_properties
        (host : Swiftui.Host) (children : string) (layout : inferredAutoLayoutResult) :
  (layoutMode layout = NONE ->
   Swiftui.createDirectionalStack host children layout
   = "ZStack() {" ++ nl ++ Swiftui.indentString host children None ++ nl ++ "}")
  /\ (layoutMode layout <> NONE ->
      let stack := match layoutMode layout with HORIZONTAL => "HStack" | _ => "VStack" end in
      let properties := Derived.stackProperties host layout in
      Swiftui.createDirectionalStack host children layout
      = if 60 <? String.length (join ", " properties)
        then stack ++ "(" ++ nl ++ join ("," ++ nl) properties ++ nl ++ ") {"
                   ++ children ++ nl ++ "}"
        else stack ++ "(" ++ join ", " properties ++ ") {" ++ nl
                   ++ Swiftui.indentString host children None ++ nl ++ "}").
Proof.
  unfold Swiftui.createDirectionalStack, Derived.stackProperties,
    Swiftui.getLayoutAlignment.
  split.
  - intros H. rewrite H. reflexivity.
  - intros H. destruct (layoutMode layout); [contradiction | |];
      destruct (counterAxisAlignItems layout); reflexivity.
Qed.

Lemma createDirectionalStack_properties_witness :
  Swiftui.createDirectionalStack Sample.swiftuiHost "Rectangle()" Sample.noLayout
  = "ZStack() {" ++ nl ++ "  Rectangle()" ++ nl ++ "}"
  /\ Swiftui.createDirectionalStack Sample.swiftuiHost "Rectangle()" MoreSamples.centered
     = "HStack(spacing: 8) {" ++ nl ++ "  Rectangle()" ++ nl ++ "}".
Proof.
  split.
  - refine (proj1 (createDirectionalStack_properties Sample.swiftuiHost
                     "Rectangle()" Sample.noLayout) _).
    reflexivity.
  - refine (proj2 (createDirectionalStack_properties Sample.swiftuiHost
                     "Rectangle()" MoreSamples.centered) _).
    discriminate.
Defined.

Lemma trimStart_no_leadingWhiteSpace (s : string) :
  Derived.leadingWhiteSpace (trimStart s) = false.
Proof.
  induction s as [|c r IH]; [reflexivity|].
  cbn [trimStart]. destruct (isWhiteSpace c) eqn:E; [exact IH|].
  cbn [Derived.leadingWhiteSpace]. exact E.
Qed.

(** X8.  In struct and in preview mode the code of a root sequence that is
    not empty is put in the template after its leading white space is
    removed: whatever the walker produced, the injected body does not start
    with a newline or a blank. *)
Theorem swiftuiMain_template_body
        (host : Swiftui.Host) (optimize : bool) (node : SceneNode)
        (rest : list SceneNode) :
  let settingsOf := fun mode =>
    {| Swiftui.swiftUIGenerationMode := mode; Swiftui.optimizeLayout := optimize |} in
  let bodyOf := fun mode =>
    trimStart (Swiftui.indentString host
                 (Swiftui.swiftuiWidgetGenerator host (settingsOf mode) (node :: rest) 0)
                 (Some 4)) in
  Swiftui.swiftuiMain host (node :: rest) (settingsOf "struct")
  = Swiftui.Returns
      ("struct " ++ Swiftui.className host (name node) ++ ": View {" ++ nl ++
       "  var body: some View {" ++ nl ++
       "    " ++ bodyOf "struct" ++ ";" ++ nl ++
       "  }" ++ nl ++
       "}")
  /\ Swiftui.swiftuiMain host (node :: rest) (settingsOf "preview")
     = Swiftui.Returns
         ("import SwiftUI" ++ nl ++ nl ++
          "struct ContentView: View {" ++ nl ++
          "  var body: some View {" ++ nl ++
          "    " ++ bodyOf "preview" ++ ";" ++ nl ++
          "  }" ++ nl ++
          "}" ++ nl ++ nl ++
          "struct ContentView_Previews: PreviewProvider {" ++ nl ++
          "  static var previews: some View {" ++ nl ++
          "    ContentView()" ++ nl ++
          "  }" ++ nl ++
          "}")
  /\ Derived.leadingWhiteSpace (bodyOf "struct") = false
  /\ Derived.leadingWhiteSpace (bodyOf "preview") = false.
Proof.
  intros settingsOf bodyOf.
  split; [reflexivity|]. split; [reflexivity|].
  split; apply trimStart_no_leadingWhiteSpace.
Qed.

(** ** The builder: what a step adds *)

Lemma trimEnd_cons (c : ascii) (r : string) :
  trimEnd (String c r)
  = match trimEnd r with
    | EmptyString => if isWhiteSpace c then EmptyString else String c EmptyString
    | String d r' => String c (String d r')
    end.
Proof. reflexivity. Qed.

Lemma trimEnd_idem (s : string) : trimEnd (trimEnd s) = trimEnd s.
Proof.
  induction s as [|c r IH]; [reflexivity|].
  rewrite (trimEnd_cons c r). destruct (trimEnd r) as [|d r'] eqn:E.
  - destruct (isWhiteSpace c) eqn:Ec; [reflexivity|].
    rewrite trimEnd_cons. cbn [trimEnd]. now rewrite Ec.
  - rewrite trimEnd_cons, IH. reflexivity.
Qed.

Lemma trimStart_fixed (s : string) :
  Derived.leadingWhiteSpace s = false -> trimStart s = s.
Proof.
  destruct s as [|c r]; [reflexivity|]. cbn. intros H. now rewrite H.
Qed.

Lemma trimEnd_no_leadingWhiteSpace (s : string) :
  Derived.leadingWhiteSpace s = false ->
  Derived.leadingWhiteSpace (trimEnd s) = false.
Proof.
  destruct s as [|c r]; [reflexivity|]. rewrite trimEnd_cons.
  cbn [Derived.leadingWhiteSpace]. intros H.
  destruct (trimEnd r); [rewrite H|]; exact H.
Qed.

Lemma trim_idem (s : string) : trim (trim s) = trim s.
Proof.
  unfold trim.
  rewrite (trimStart_fixed (trimEnd (trimStart s))).
  - apply trimEnd_idem.
  - apply trimEnd_no_leadingWhiteSpace, trimStart_no_leadingWhiteSpace.
Qed.

(** X9.  Every declaration [build] serializes is trimmed: it neither starts
    nor ends with white space. *)
Theorem build_serializes_trimmed
        (this : Html.HtmlDefaultBuilder) (additionalStyle : list string) :
  Forall (fun s => trim s = s /\ Derived.leadingWhiteSpace s = false)
         (Html.build_formattedStylesFiltered this additionalStyle).
Proof.
  apply Forall_forall. intros s Hs.
  unfold Html.build_formattedStylesFiltered in Hs.
  apply filter_In in Hs. destruct Hs as [Hs _].
  apply in_map_iff in Hs. destruct Hs as (s0 & <- & _).
  split; [apply trim_idem|].
  unfold trim. apply trimEnd_no_leadingWhiteSpace, trimStart_no_leadingWhiteSpace.
Qed.

(** X10.  The style attribute is left out only when no declaration was
    accumulated.  When declarations were accumulated and the sizing filter
    drops them all, the attribute is still written, with nothing in it. *)
Theorem build_formattedStyle_empty
        (this : Html.HtmlDefaultBuilder) (additionalStyle : list string) :
  (Html.build_formattedStyle this additionalStyle = ""
   <-> Html.styles (Html.addStyles this additionalStyle) = [])
  /\ (Html.styles (Html.addStyles this additionalStyle) <> [] ->
      Html.build_formattedStylesFiltered this additionalStyle = [] ->
      Html.build_formattedStyle this additionalStyle
      = if Html.isJSX this then " style={{}}" else " style=" ++ dquote ++ dquote).
Proof.
  unfold Html.build_formattedStyle. rewrite isJSX_addStyles. split.
  - destruct (Html.styles (Html.addStyles this additionalStyle)) as [|s l].
    + split; reflexivity.
    + cbn [List.length Nat.ltb Nat.leb]. destruct (Html.isJSX this);
        split; discriminate.
  - intros Hne Hnil. rewrite Hnil.
    destruct (Html.styles (Html.addStyles this additionalStyle)); [contradiction|].
    reflexivity.
Qed.

Lemma build_formattedStyle_empty_witness :
  Html.build_formattedStyle MoreSamples.heightOnly [] = " style=" ++ dquote ++ dquote.
Proof.
  refine (proj2 (build_formattedStyle_empty MoreSamples.heightOnly []) _ _);
    [discriminate | reflexivity].
Defined.

Lemma truthy_px (s : string) : truthy (s ++ "px") = true.
Proof.
  apply truthy_true. destruct s; discriminate.
Qed.

(** X11.  A border value is the weight in [px], the stroke colour and the
    stroke style, separated by single spaces; when no stroke colour
    resolves it is the weight and the style alone. *)
Theorem consolidateBorders_parts
        (host : Html.Host) (color : string) (dashed : bool) (border : Q) :
  let borderStyle := if dashed then "dotted" else "solid" in
  Html.consolidateBorders host color borderStyle border
  = Html.sliceNum host border ++ "px" ++ " "
    ++ (if (color =? "")%string then borderStyle else color ++ " " ++ borderStyle).
Proof.
  cbv zeta. unfold Html.consolidateBorders. cbn [filter]. rewrite truthy_px.
  destruct color as [|c color]; destruct dashed; cbn; now rewrite ?append_assoc.
Qed.

Lemma buildBackgroundValues_unsupported (host : Html.Host) (paints : list Paint) :
  forallb (fun paint => negb (Design.supportedPaint paint)) paints = true ->
  Html.buildBackgroundValues host (PaintArray paints) = "".
Proof.
  intros H.
  assert (Hs : forall paint, In paint paints -> Design.supportedPaint paint = false).
  { intros paint Hp. rewrite forallb_forall in H. specialize (H paint Hp).
    now destruct (Design.supportedPaint paint). }
  assert (Hf : filter truthy (map (Html.paintStyle host) paints) = []).
  { clear H. induction paints as [|p l IH]; [reflexivity|].
    cbn [map filter].
    assert (Hp : Html.paintStyle host p = "").
    { specialize (Hs p (or_introl eq_refl)). unfold Design.supportedPaint in Hs.
      apply orb_false_iff in Hs. destruct Hs as [H1 H2].
      unfold Html.paintStyle. now rewrite H1, H2. }
    rewrite Hp. cbn. apply IH. intros q Hq. apply Hs. now right. }
  unfold Html.buildBackgroundValues.
  destruct paints as [|p [|q l]].
  - reflexivity.
  - cbn [List.length Nat.eqb nth_error andb].
    assert (Hp : Html.isSOLID p = false).
    { specialize (Hs p (or_introl eq_refl)). unfold Design.supportedPaint in Hs.
      now apply orb_false_iff in Hs. }
    rewrite Hp, Hf. reflexivity.
  - cbn [List.length Nat.eqb andb]. rewrite Hf. reflexivity.
Qed.

(** X12.  The background step adds at most one declaration, and none at all
    for the Mixed sentinel, for no paint, or for paints of which none is a
    solid or a rendered gradient: the builder is unchanged then. *)
Theorem applyFillsToStyle_background
        (host : Html.Host) (this : Html.HtmlDefaultBuilder) (paintArray : Paints) :
  List.length (Html.styles (Html.applyFillsToStyle host this paintArray false))
  <= S (List.length (Html.styles this))
  /\ (paintArray = Mixed -> Html.applyFillsToStyle host this paintArray false = this)
  /\ (forall paints,
         paintArray = PaintArray paints ->
         forallb (fun paint => negb (Design.supportedPaint paint)) paints = true ->
         Html.applyFillsToStyle host this paintArray false = this).
Proof.
  split; [|split].
  - unfold Html.applyFillsToStyle.
    destruct (truthy (Html.buildBackgroundValues host paintArray)); [|lia].
    rewrite styles_addStyles, length_app. cbn [filter].
    destruct (truthy _); cbn [List.length]; lia.
  - intros ->. reflexivity.
  - intros paints -> H. unfold Html.applyFillsToStyle.
    now rewrite (buildBackgroundValues_unsupported host paints H).
Qed.

Lemma applyFillsToStyle_background_witness :
  Html.applyFillsToStyle Sample.htmlHost MoreSamples.emptyBuilder Mixed false
  = MoreSamples.emptyBuilder
  /\ Html.applyFillsToStyle Sample.htmlHost MoreSamples.emptyBuilder
       (PaintArray [Sample.paintOf IMAGE; Sample.paintOf VIDEO]) false
     = MoreSamples.emptyBuilder.
Proof.
  split.
  - refine (proj1 (proj2 (applyFillsToStyle_background Sample.htmlHost
                            MoreSamples.emptyBuilder Mixed)) _).
    reflexivity.
  - refine (proj2 (proj2 (applyFillsToStyle_background Sample.htmlHost
                            MoreSamples.emptyBuilder
                            (PaintArray [Sample.paintOf IMAGE; Sample.paintOf VIDEO])))
                  [Sample.paintOf IMAGE; Sample.paintOf VIDEO] _ _);
      reflexivity.
Defined.

(** ** The builder: the shape steps together *)

Lemma isLayerBlur_not_background (e : Steps.Effect) :
  Steps.isLayerBlur e = true -> Steps.isBackgroundBlur e = false.
Proof.
  unfold Steps.isLayerBlur, Steps.isBackgroundBlur.
  destruct (Steps.effectType e); intros H; solve [reflexivity | discriminate H].
Qed.

Lemma isBackgroundBlur_not_layer (e : Steps.Effect) :
  Steps.isBackgroundBlur e = true -> Steps.isLayerBlur e = false.
Proof.
  unfold Steps.isLayerBlur, Steps.isBackgroundBlur.
  destruct (Steps.effectType e); intros H; solve [reflexivity | discriminate H].
Qed.

Lemma find_pickedBlurs (es : list Steps.Effect) :
  find Steps.isLayerBlur (Derived.pickedBlurs es) = find Steps.isLayerBlur es
  /\ find Steps.isBackgroundBlur (Derived.pickedBlurs es)
     = find Steps.isBackgroundBlur es.
Proof.
  unfold Derived.pickedBlurs.
  destruct (find Steps.isLayerBlur es) as [l|] eqn:El;
    destruct (find Steps.isBackgroundBlur es) as [g|] eqn:Eg.
  - apply find_some in El, Eg. destruct El as [_ El], Eg as [_ Eg].
    cbn [app find]. rewrite El, (isLayerBlur_not_background l El), Eg. auto.
  - apply find_some in El. destruct El as [_ El].
    cbn [app find]. rewrite El, (isLayerBlur_not_background l El). auto.
  - apply find_some in Eg. destruct Eg as [_ Eg].
    cbn [app find]. rewrite Eg, (isBackgroundBlur_not_layer g Eg). auto.
  - auto.
Qed.

(** X13.  The blur step appends the [filter] declaration of the first
    visible layer blur, then the [backdrop-filter] declaration of the first
    visible background blur, in this order whatever their order among the
    effects.  It reads no other effect: hidden effects, shadows and later
    blurs change nothing, and no more than two declarations are added. *)
Theorem blur_first_visible_blurs
        (host : Steps.Host) (this : Html.HtmlDefaultBuilder)
        (node : Steps.EffectsNode) (es : list Steps.Effect) :
  Steps.effects node = Some es ->
  let declaration := fun (property : string) (e : Steps.Effect) =>
    Html.formatWithJSX (Steps.html host) property (Html.isJSX this)
      ("blur(" ++ Html.sliceNum (Steps.html host) (Steps.radius e) ++ "px)") in
  Html.styles (Steps.blur host this node)
  = (Html.styles this
     ++ match find Steps.isLayerBlur es with
        | Some e => filter truthy [declaration "filter" e]
        | None => []
        end
     ++ match find Steps.isBackgroundBlur es with
        | Some e => filter truthy [declaration "backdrop-filter" e]
        | None => []
        end)%list
  /\ Steps.blur host this node
     = Steps.blur host this (Steps.withEffects node (Some (Derived.pickedBlurs es)))
  /\ List.length (Derived.pickedBlurs es) <= 2
  /\ List.length (Html.styles (Steps.blur host this node))
     <= List.length (Html.styles this) + 2.
Proof.
  intros He declaration. split; [|split; [|split]].
  - unfold Steps.blur. rewrite He.
    destruct (0 <? List.length es) eqn:E.
    + destruct (find Steps.isLayerBlur es), (find Steps.isBackgroundBlur es);
        rewrite ?styles_addStyles, ?isJSX_addStyles, <- ?app_assoc, ?app_nil_r;
        reflexivity.
    + destruct es; [|discriminate E]. cbn [find]. now rewrite !app_nil_r.
  - unfold Steps.blur. rewrite He. cbn [Steps.withEffects Steps.effects].
    destruct (find_pickedBlurs es) as [Hl Hg]. rewrite Hl, Hg.
    destruct (0 <? List.length es) eqn:E1;
      destruct (0 <? List.length (Derived.pickedBlurs es)) eqn:E2; try reflexivity.
    + unfold Derived.pickedBlurs in E2.
      destruct (find Steps.isLayerBlur es); [discriminate E2|].
      destruct (find Steps.isBackgroundBlur es); [discriminate E2|]. reflexivity.
    + destruct es; [|discriminate E1]. discriminate E2.
  - unfold Derived.pickedBlurs.
    destruct (find Steps.isLayerBlur es), (find Steps.isBackgroundBlur es);
      cbn; lia.
  - unfold Steps.blur. rewrite He.
    destruct (0 <? List.length es); [|lia].
    destruct (find Steps.isLayerBlur es), (find Steps.isBackgroundBlur es);
      rewrite ?styles_addStyles, ?length_app; cbn [filter];
      repeat match goal with
             | |- context [truthy ?x] => destruct (truthy x)
             end; cbn [List.length]; lia.
Qed.

Lemma blur_first_visible_blurs_witness :
  Html.styles (Steps.blur MoreSamples.stepsHost MoreSamples.emptyBuilder
                          MoreSamples.blurred)
  = ["filter: blur(3px)"; "backdrop-filter: blur(2px)"]
  /\ Steps.blur MoreSamples.stepsHost MoreSamples.emptyBuilder MoreSamples.blurred
     = Steps.blur MoreSamples.stepsHost MoreSamples.emptyBuilder
         (Steps.withEffects MoreSamples.blurred
            (Some [MoreSamples.layerBlur true 3; MoreSamples.backgroundBlur true 2])).
Proof.
  split.
  - exact (proj1 (blur_first_visible_blurs MoreSamples.stepsHost
                    MoreSamples.emptyBuilder MoreSamples.blurred
                    [MoreSamples.dropShadow; MoreSamples.layerBlur false 9;
                     MoreSamples.backgroundBlur true 2; MoreSamples.layerBlur true 3]
                    eq_refl)).
  - exact (proj1 (proj2 (blur_first_visible_blurs MoreSamples.stepsHost
                    MoreSamples.emptyBuilder MoreSamples.blurred
                    [MoreSamples.dropShadow; MoreSamples.layerBlur false 9;
                     MoreSamples.backgroundBlur true 2; MoreSamples.layerBlur true 3]
                    eq_refl))).
Defined.

Ltac builder_norm :=
  cbn [Html.addStyles Html.withStyles Html.styles Html.isJSX Html.node Html.name
       Html.visible Derived.cleared app negb];
  rewrite <- ?app_assoc; try reflexivity.

Lemma applyFillsToStyle_appends
      (host : Html.Host) (this : Html.HtmlDefaultBuilder) (paintArray : Paints)
      (text : bool) :
  Html.styles (Html.applyFillsToStyle host this paintArray text)
  = (Html.styles this
     ++ Html.styles (Html.applyFillsToStyle host (Derived.cleared this) paintArray text))%list
  /\ Derived.cleared (Html.applyFillsToStyle host this paintArray text)
     = Derived.cleared this.
Proof.
  destruct this as [s j v n nm]. unfold Html.applyFillsToStyle.
  destruct text; [|destruct (truthy (Html.buildBackgroundValues host paintArray))];
    split; builder_norm; now rewrite app_nil_r.
Qed.

Lemma shadow_appends
      (host : Steps.Host) (this : Html.HtmlDefaultBuilder) (node : Steps.EffectsNode) :
  Html.styles (Steps.shadow host this node)
  = (Html.styles this ++ Html.styles (Steps.shadow host (Derived.cleared this) node))%list
  /\ Derived.cleared (Steps.shadow host this node) = Derived.cleared this.
Proof.
  destruct this as [s j v n nm]. unfold Steps.shadow.
  destruct (isSome (Steps.effects node)), (truthy (Steps.htmlShadow host node));
    split; builder_norm; now rewrite app_nil_r.
Qed.

Lemma border_appends
      (host : Html.Host) (this : Html.HtmlDefaultBuilder) (node : SceneNode) :
  Html.styles (Html.border host this node)
  = (Html.styles this ++ Html.styles (Html.border host (Derived.cleared this) node))%list
  /\ Derived.cleared (Html.border host this node) = Derived.cleared this.
Proof.
  destruct this as [s j v n nm]. unfold Html.border.
  destruct (Html.commonStroke host node) as [[all | leftW topW rightW bottomW]|].
  - destruct (Qeq_bool all 0); split; builder_norm.
  - destruct (Qeq_bool leftW 0), (Qeq_bool topW 0),
             (Qeq_bool rightW 0), (Qeq_bool bottomW 0);
      split; builder_norm.
  - split; builder_norm.
Qed.

Lemma blur_appends
      (host : Steps.Host) (this : Html.HtmlDefaultBuilder) (node : Steps.EffectsNode) :
  Html.styles (Steps.blur host this node)
  = (Html.styles this ++ Html.styles (Steps.blur host (Derived.cleared this) node))%list
  /\ Derived.cleared (Steps.blur host this node) = Derived.cleared this.
Proof.
  destruct this as [s j v n nm]. unfold Steps.blur.
  destruct (Steps.effects node) as [es|]; [|split; builder_norm; now rewrite app_nil_r].
  destruct (0 <? List.length es); [|split; builder_norm; now rewrite app_nil_r].
  destruct (find Steps.isLayerBlur es), (find Steps.isBackgroundBlur es);
    split; builder_norm; now rewrite app_nil_r.
Qed.

(** X14.  The shape steps only append, each what it would add to a builder
    without declarations: after [commonShapeStyles] the list is the one from
    before, then the fill, the shadow, the corner radius and border, the
    blur, in this order; the other fields of the builder are as before. *)
Theorem commonShapeStyles_order
        (host : Steps.Host) (this : Html.HtmlDefaultBuilder) (node : Steps.EffectsNode) :
  let clean := Derived.cleared this in
  Html.styles (Steps.commonShapeStyles host this node)
  = (Html.styles this
     ++ Html.styles (Html.applyFillsToStyle (Steps.html host) clean (fills (Steps.scene node))
                       (match type (Steps.scene node) with TEXT => true | _ => false end))
     ++ Html.styles (Steps.shadow host clean node)
     ++ Html.styles (Html.border (Steps.html host) clean (Steps.scene node))
     ++ Html.styles (Steps.blur host clean node))%list
  /\ Derived.cleared (Steps.commonShapeStyles host this node) = clean.
Proof.
  intros clean. unfold Steps.commonShapeStyles.
  set (text := match type (Steps.scene node) with TEXT => true | _ => false end).
  destruct (applyFillsToStyle_appends (Steps.html host) this (fills (Steps.scene node)) text)
    as [S1 C1].
  set (t1 := Html.applyFillsToStyle (Steps.html host) this (fills (Steps.scene node)) text) in *.
  destruct (shadow_appends host t1 node) as [S2 C2].
  set (t2 := Steps.shadow host t1 node) in *.
  destruct (border_appends (Steps.html host) t2 (Steps.scene node)) as [S3 C3].
  set (t3 := Html.border (Steps.html host) t2 (Steps.scene node)) in *.
  destruct (blur_appends host t3 node) as [S4 C4].
  split.
  - rewrite S4, S3, S2, S1, C3, C2, C1. fold clean. now rewrite <- !app_assoc.
  - rewrite C4, C3, C2, C1. reflexivity.
Qed.

Lemma addStyles_no_empty (this : Html.HtmlDefaultBuilder) (newStyles : list string) :
  Forall (fun s => s <> "") (Html.styles this) ->
  Forall (fun s => s <> "") (Html.styles (Html.addStyles this newStyles)).
Proof.
  intros H. rewrite styles_addStyles. apply Forall_app. split; [exact H|].
  apply Forall_forall. intros s Hs. apply filter_In in Hs. now apply truthy_true.
Qed.

Ltac keep_no_empty :=
  repeat match goal with
         | |- Forall _ (Html.styles (Html.addStyles _ _)) => apply addStyles_no_empty
         | |- Forall _ (Html.styles (if ?c then _ else _)) => destruct c
         | |- Forall _ (Html.styles (match ?c with _ => _ end)) => destruct c
         end; try assumption.

(** X15.  No step of the builder stores an empty declaration: a builder
    that holds none (as the one the constructor makes) holds none after
    [addStyles], after the border step, after the fill step, and after all
    the shape steps. *)
Theorem styles_never_empty
        (host : Steps.Host) (this : Html.HtmlDefaultBuilder)
        (node : Steps.EffectsNode) (newStyles : list string) (text : bool) :
  Forall (fun s => s <> "") (Html.styles this) ->
  Forall (fun s => s <> "") (Html.styles (Html.addStyles this newStyles))
  /\ Forall (fun s => s <> "")
            (Html.styles (Html.border (Steps.html host) this (Steps.scene node)))
  /\ Forall (fun s => s <> "")
            (Html.styles (Html.applyFillsToStyle (Steps.html host) this
                            (fills (Steps.scene node)) text))
  /\ Forall (fun s => s <> "") (Html.styles (Steps.commonShapeStyles host this node)).
Proof.
  intros H.
  assert (Hfill : forall t paints tx,
             Forall (fun s => s <> "") (Html.styles t) ->
             Forall (fun s => s <> "")
                    (Html.styles (Html.applyFillsToStyle (Steps.html host) t paints tx))).
  { intros t paints tx Ht. unfold Html.applyFillsToStyle. keep_no_empty. }
  assert (Hborder : forall t n,
             Forall (fun s => s <> "") (Html.styles t) ->
             Forall (fun s => s <> "") (Html.styles (Html.border (Steps.html host) t n))).
  { intros t n Ht. unfold Html.border. keep_no_empty. }
  assert (Hshadow : forall t,
             Forall (fun s => s <> "") (Html.styles t) ->
             Forall (fun s => s <> "") (Html.styles (Steps.shadow host t node))).
  { intros t Ht. unfold Steps.shadow. keep_no_empty. }
  assert (Hblur : forall t,
             Forall (fun s => s <> "") (Html.styles t) ->
             Forall (fun s => s <> "") (Html.styles (Steps.blur host t node))).
  { intros t Ht. unfold Steps.blur. keep_no_empty. }
  repeat split.
  - now apply addStyles_no_empty.
  - now apply Hborder.
  - now apply Hfill.
  - unfold Steps.commonShapeStyles. apply Hblur, Hborder, Hshadow, Hfill, H.
Qed.

Lemma styles_never_empty_witness :
  Forall (fun s => s <> "")
         (Html.styles (Steps.commonShapeStyles MoreSamples.stepsHost
                         MoreSamples.emptyBuilder MoreSamples.blurred)).
Proof.
  refine (proj2 (proj2 (proj2
    (styles_never_empty MoreSamples.stepsHost MoreSamples.emptyBuilder
       MoreSamples.blurred [] false _)))).
  constructor.
Defined.

(** ** The later revision: the style-name override *)

Lemma findIndex_Some {A : Type} (p : A -> bool) (a : list A) :
  forall i, Revision.findIndex p a = Some i ->
            (exists x, nth_error a i = Some x /\ p x = true)
            /\ (forall j y, j < i -> nth_error a j = Some y -> p y = false).
Proof.
  induction a as [|x a IH]; intros i H; [discriminate H|].
  cbn [Revision.findIndex] in H. destruct (p x) eqn:Ep.
  - injection H as <-. split; [exists x; auto|]. intros j y Hj. lia.
  - destruct (Revision.findIndex p a) as [k|]; [|discriminate H].
    injection H as <-. destruct (IH k eq_refl) as [Hx Hbefore]. split; [exact Hx|].
    intros [|j] y Hj Hy.
    + cbn in Hy. injection Hy as <-. exact Ep.
    + cbn in Hy. apply (Hbefore j y); [lia | exact Hy].
Qed.

Lemma findIndex_None {A : Type} (p : A -> bool) (a : list A) :
  Revision.findIndex p a = None -> forall x, In x a -> p x = false.
Proof.
  induction a as [|y a IH]; intros H x Hx; [destruct Hx|].
  cbn [Revision.findIndex] in H. destruct (p y) eqn:Ep; [discriminate H|].
  destruct (Revision.findIndex p a); [discriminate H|].
  destruct Hx as [<- | Hx]; [exact Ep | now apply IH].
Qed.

Lemma length_setAt {A : Type} (a : list A) (i : nat) (x : A) :
  i < List.length a -> List.length (Revision.setAt a i x) = List.length a.
Proof.
  intros H. unfold Revision.setAt.
  rewrite length_app, length_firstn. cbn [List.length]. rewrite length_skipn. lia.
Qed.

Lemma nth_error_setAt_same {A : Type} (a : list A) (i : nat) (x : A) :
  i < List.length a -> nth_error (Revision.setAt a i x) i = Some x.
Proof.
  intros H. unfold Revision.setAt.
  rewrite nth_error_app2 by (rewrite length_firstn; lia).
  rewrite length_firstn. replace (i - Nat.min i (List.length a)) with 0 by lia.
  reflexivity.
Qed.

Lemma nth_error_setAt_other {A : Type} (a : list A) (i j : nat) (x : A) :
  i < List.length a -> j <> i ->
  nth_error (Revision.setAt a i x) j = nth_error a j.
Proof.
  intros H Hj. unfold Revision.setAt.
  destruct (Nat.lt_ge_cases j i) as [Hlt | Hge].
  - rewrite nth_error_app1 by (rewrite length_firstn; lia).
    rewrite nth_error_firstn.
    now replace (j <? i) with true by (symmetry; apply Nat.ltb_lt; exact Hlt).
  - rewrite nth_error_app2 by (rewrite length_firstn; lia).
    rewrite length_firstn. replace (Nat.min i (List.length a)) with i by lia.
    destruct (j - i) as [|k] eqn:E; [lia|].
    cbn [nth_error]. rewrite nth_error_skipn. f_equal. lia.
Qed.

Lemma nth_error_lt {A : Type} (a : list A) (i : nat) (x : A) :
  nth_error a i = Some x -> i < List.length a.
Proof.
  intros H. apply nth_error_Some. congruence.
Qed.

Lemma addVariableStyle_resolved
      (host : Revision.Host) (this : Html.HtmlDefaultBuilder)
      (stylePropName key varName : string) :
  Revision.nodeField host (Html.node this) key <> Some "" ->
  Revision.styleName host (Revision.nodeField host (Html.node this) key) = Some varName ->
  varName <> "" ->
  Revision.addVariableStyle host this stylePropName key
  = match Revision.findIndex (fun s => startsWith (stylePropName ++ ":") s)
                             (Html.styles this) with
    | Some i =>
        Html.withStyles this
          (Revision.setAt (Html.styles this) i (stylePropName ++ ": var=" ++ varName))
    | None =>
        Html.withStyles this
          (Html.styles this ++ [(stylePropName ++ ": var=" ++ varName)%string])%list
    end.
Proof.
  intros Hid Hname Hvar. unfold Revision.addVariableStyle.
  rewrite Hname. apply truthy_true in Hvar. rewrite Hvar.
  destruct (Revision.nodeField host (Html.node this) key) as [s|]; [|reflexivity].
  destruct (String.eqb_spec s ""); [subst; contradiction | reflexivity].
Qed.

(** X16.  When the style identifier of the node resolves to a name, the
    override takes the place of the first declaration of the property: same
    position, same number of declarations, every other declaration as it
    was.  When the property has no declaration yet, the override is added at
    the end. *)
Theorem addVariableStyle_in_place
        (host : Revision.Host) (this : Html.HtmlDefaultBuilder)
        (stylePropName key varName : string) :
  Revision.nodeField host (Html.node this) key <> Some "" ->
  Revision.styleName host (Revision.nodeField host (Html.node this) key) = Some varName ->
  varName <> "" ->
  let declares := fun s => startsWith (stylePropName ++ ":") s in
  let override := stylePropName ++ ": var=" ++ varName in
  let before := Html.styles this in
  let after := Html.styles (Revision.addVariableStyle host this stylePropName key) in
  (forall i, Revision.findIndex declares before = Some i ->
      List.length after = List.length before
      /\ nth_error after i = Some override
      /\ (forall j, j <> i -> nth_error after j = nth_error before j)
      /\ (exists s, nth_error before i = Some s /\ declares s = true)
      /\ (forall j s, j < i -> nth_error before j = Some s -> declares s = false))
  /\ (Revision.findIndex declares before = None ->
      after = (before ++ [override])%list
      /\ forall s, In s before -> declares s = false).
Proof.
  intros Hid Hname Hvar declares override before after.
  unfold after. rewrite (addVariableStyle_resolved host this stylePropName key varName)
    by assumption.
  fold declares override before. split.
  - intros i Hi. rewrite Hi. cbn [Html.withStyles Html.styles].
    destruct (findIndex_Some declares before i Hi) as [(s & Hs & Hp) Hbefore].
    pose proof (nth_error_lt before i s Hs) as Hlt.
    split; [now apply length_setAt|].
    split; [now apply nth_error_setAt_same|].
    split; [intros j Hj; now apply nth_error_setAt_other|].
    split; [exists s; auto | exact Hbefore].
  - intros Hn. rewrite Hn. cbn [Html.withStyles Html.styles].
    split; [reflexivity | exact (findIndex_None declares before Hn)].
Qed.

Lemma addVariableStyle_in_place_witness :
  nth_error (Html.styles (Revision.addVariableStyle MoreSamples.revisionHost
                            Sample.sizedBuilder "background" "backgroundStyleId")) 2
  = Some "background: var=Primary"
  /\ Html.styles (Revision.addVariableStyle MoreSamples.revisionHost
                    MoreSamples.heightOnly "background" "backgroundStyleId")
     = ["height: 20px"; "background: var=Primary"].
Proof.
  split.
  - refine (proj1 (proj2 (proj1
      (addVariableStyle_in_place MoreSamples.revisionHost Sample.sizedBuilder
         "background" "backgroundStyleId" "Primary" _ _ _) 2 _)));
      solve [discriminate | reflexivity].
  - refine (proj1 (proj2
      (addVariableStyle_in_place MoreSamples.revisionHost MoreSamples.heightOnly
         "background" "backgroundStyleId" "Primary" _ _ _) _));
      solve [discriminate | reflexivity].
Defined.

(** ** The encoding of the instance properties *)

Lemma replaceQuotes_no_quote (s : string) :
  Derived.hasChar Props.quoteChar (Props.replaceQuotes s) = false.
Proof.
  induction s as [|c r IH]; [reflexivity|].
  cbn [Props.replaceQuotes]. destruct (Ascii.eqb c Props.quoteChar) eqn:E.
  - change (Derived.hasChar Props.quoteChar ("``" ++ Props.replaceQuotes r))
      with (Derived.hasChar Props.quoteChar (Props.replaceQuotes r)).
    exact IH.
  - cbn [Derived.hasChar]. now rewrite E, IH.
Qed.

(** X17.  Whatever text [JSON.stringify] gave, the encoded properties hold
    no double quote, so the attribute they are written in cannot be closed
    by them.  The encoding cannot be undone in general: an escaped quote and
    the token written for it are encoded alike. *)
Theorem propsStr_no_quote :
  (forall json, Derived.hasChar Props.quoteChar (Props.propsStr json) = false)
  /\ Props.propsStr (backslash ++ dquote) = Props.propsStr "[quote]"
  /\ ~ (forall a c, Props.propsStr a = Props.propsStr c -> a = c).
Proof.
  split; [intros json; apply replaceQuotes_no_quote|].
  split; [reflexivity|].
  intros H. specialize (H (backslash ++ dquote) "[quote]" eq_refl). discriminate H.
Qed.

(** ** The later revision: what is serialized *)

Lemma trimEnd_cons_nonws (c : ascii) (r : string) :
  isWhiteSpace c = false -> trimEnd (String c r) = String c (trimEnd r).
Proof.
  intros H. rewrite trimEnd_cons. destruct (trimEnd r); [now rewrite H | reflexivity].
Qed.

Lemma hd_split_cons (c a : ascii) (r : string) :
  hd "" (split c (String a r))
  = if Ascii.eqb a c then "" else String a (hd "" (split c r)).
Proof.
  cbn [split]. destruct (Ascii.eqb a c); [reflexivity|].
  pose proof (split_not_nil c r) as Hn.
  destruct (split c r); [contradiction | reflexivity].
Qed.

Lemma styleProp_background_override (varName : string) :
  Html.styleProp (trim ("background: var=" ++ varName)) = "background".
Proof.
  assert (Hstart : trimStart ("background: var=" ++ varName)
                   = "background: var=" ++ varName) by reflexivity.
  unfold Html.styleProp. unfold trim at 2. rewrite Hstart. cbn [append].
  repeat (rewrite trimEnd_cons_nonws by reflexivity).
  repeat (rewrite hd_split_cons; cbn [Ascii.eqb Bool.eqb]).
  reflexivity.
Qed.

Lemma keepStyle_true (this : Html.HtmlDefaultBuilder) (s : string) :
  Html.keepStyle this s = true ->
  (Html.styleProp s = "width" -> layoutSizingHorizontal (Html.node this) = FIXED)
  /\ (Html.styleProp s = "height" -> layoutSizingVertical (Html.node this) = FIXED).
Proof.
  unfold Html.keepStyle. intros H. split; intros E; rewrite E in H; cbn in H.
  - destruct (layoutSizingHorizontal (Html.node this));
      solve [reflexivity | discriminate H].
  - destruct (layoutSizingVertical (Html.node this));
      solve [reflexivity | discriminate H].
Qed.

Lemma addVariableStyle_node
      (host : Revision.Host) (this : Html.HtmlDefaultBuilder) (prop key : string) :
  Html.node (Revision.addVariableStyle host this prop key) = Html.node this.
Proof.
  unfold Revision.addVariableStyle.
  destruct (negb _); [|reflexivity].
  destruct (Revision.styleName host _) as [v|]; [|reflexivity].
  destruct (truthy v); [|reflexivity].
  destruct (Revision.findIndex _ _); reflexivity.
Qed.

(** A declaration of another property is not touched by an override. *)
Lemma addVariableStyle_keeps
      (host : Revision.Host) (this : Html.HtmlDefaultBuilder) (prop key d : string) :
  In d (Html.styles this) ->
  startsWith (prop ++ ":") d = false ->
  In d (Html.styles (Revision.addVariableStyle host this prop key)).
Proof.
  intros Hd Hp. unfold Revision.addVariableStyle.
  destruct (negb _); [|exact Hd].
  destruct (Revision.styleName host _) as [v|]; [|exact Hd].
  destruct (truthy v); [|exact Hd].
  destruct (Revision.findIndex _ _) as [i|] eqn:E; cbn [Html.withStyles Html.styles].
  - destruct (findIndex_Some _ _ i E) as [(x & Hx & Hpx) _].
    apply In_nth_error in Hd. destruct Hd as [k Hk].
    assert (k <> i) by (intros ->; rewrite Hx in Hk; injection Hk as ->; congruence).
    apply (nth_error_In _ k).
    rewrite nth_error_setAt_other; [exact Hk | eapply nth_error_lt; exact Hx | assumption].
  - apply in_or_app. now left.
Qed.

Lemma addVariableStyle_adds
      (host : Revision.Host) (this : Html.HtmlDefaultBuilder)
      (prop key varName : string) :
  Revision.nodeField host (Html.node this) key <> Some "" ->
  Revision.styleName host (Revision.nodeField host (Html.node this) key) = Some varName ->
  varName <> "" ->
  In (prop ++ ": var=" ++ varName)
     (Html.styles (Revision.addVariableStyle host this prop key)).
Proof.
  intros Hid Hname Hvar.
  rewrite (addVariableStyle_resolved host this prop key varName) by assumption.
  destruct (Revision.findIndex _ _) as [i|] eqn:E; cbn [Html.withStyles Html.styles].
  - destruct (findIndex_Some _ _ i E) as [(x & Hx & _) _].
    apply (nth_error_In _ i). apply nth_error_setAt_same.
    eapply nth_error_lt; exact Hx.
  - apply in_or_app. right. now left.
Qed.

(** X18.  In the later revision the sizing rule is unchanged: no [width] or
    [height] declaration is serialized for an axis that is not FIXED.  And
    when the background style of the node resolves to a name, the
    declaration [background: var=] of that name is always among the
    serialized ones. *)
Theorem build_serializes_override
        (host : Revision.Host) (this : Html.HtmlDefaultBuilder)
        (additionalStyle : list string) :
  (forall s, In s (Revision.build_formattedStylesFiltered host this additionalStyle) ->
     (Html.styleProp s = "width" -> layoutSizingHorizontal (Html.node this) = FIXED)
     /\ (Html.styleProp s = "height" -> layoutSizingVertical (Html.node this) = FIXED))
  /\ (forall varName,
        Revision.nodeField host (Html.node this) "backgroundStyleId" <> Some "" ->
        Revision.styleName host
          (Revision.nodeField host (Html.node this) "backgroundStyleId") = Some varName ->
        varName <> "" ->
        In (trim ("background: var=" ++ varName))
           (Revision.build_formattedStylesFiltered host this additionalStyle)).
Proof.
  assert (Hnode : Html.node (Revision.build_overridden host this additionalStyle)
                  = Html.node this).
  { unfold Revision.build_overridden.
    destruct (type _); rewrite ?addVariableStyle_node; reflexivity. }
  split.
  - intros s Hs. unfold Revision.build_formattedStylesFiltered in Hs.
    apply filter_In in Hs. destruct Hs as [_ Hk]. apply keepStyle_true in Hk.
    now rewrite Hnode in Hk.
  - intros varName Hid Hname Hvar.
    unfold Revision.build_formattedStylesFiltered. apply filter_In. split.
    + apply in_map. unfold Revision.build_overridden.
      pose proof (addVariableStyle_adds host (Html.addStyles this additionalStyle)
                    "background" "backgroundStyleId" varName Hid Hname Hvar) as Hin.
      destruct (type _); try exact Hin;
        apply addVariableStyle_keeps; solve [exact Hin | reflexivity].
    + unfold Html.keepStyle. rewrite styleProp_background_override. reflexivity.
Qed.

Lemma build_serializes_override_witness :
  In (trim ("background: var=" ++ "Primary"))
     (Revision.build_formattedStylesFiltered MoreSamples.revisionHost
        MoreSamples.heightOnly []).
Proof.
  refine (proj2 (build_serializes_override MoreSamples.revisionHost
                   MoreSamples.heightOnly []) "Primary" _ _ _);
    solve [discriminate | reflexivity].
Defined.

(** ** Chunking and hidden children *)

Lemma filter_none {A : Type} (f : A -> bool) (l : list A) :
  (forall x, In x l -> f x = false) -> filter f l = [].
Proof.
  induction l as [|x l IH]; intros H; [reflexivity|].
  cbn [filter]. rewrite (H x (or_introl eq_refl)). apply IH.
  intros y Hy. apply H. now right.
Qed.

Lemma chunksFuel_incl {A : Type} (n fuel : nat) :
  forall (l c : list A), In c (Design.chunksFuel fuel n l) -> incl c l.
Proof.
  induction fuel as [|fuel IH]; intros l c Hc; [destruct Hc|].
  destruct l as [|x l]; [destruct Hc|].
  cbn [Design.chunksFuel] in Hc. destruct Hc as [<- | Hc].
  - apply incl_firstn.
  - eapply incl_tran; [apply (IH _ _ Hc) | apply incl_skipn].
Qed.

Lemma map_constant {A B : Type} (f : A -> B) (y : B) (l : list A) :
  (forall x, In x l -> f x = y) -> map f l = repeat y (List.length l).
Proof.
  induction l as [|x l IH]; intros H; [reflexivity|].
  cbn [map List.length repeat]. rewrite (H x (or_introl eq_refl)). f_equal.
  apply IH. intros z Hz. apply H. now right.
Qed.

(** X19.  The chunking counts the children, hidden ones too: a container of
    at least ten children that are all hidden is rendered as empty groups,
    one per chunk, so as one empty group at least. *)
Theorem widgetGeneratorWithLimits_hidden_children
        (host : Swiftui.Host) (settings : Swiftui.PluginSettings)
        (node : SceneNode) (indentLevel : nat) :
  10 <= List.length (children node) ->
  (forall child, In child (children node) -> visible child = false) ->
  let generator := Swiftui.swiftuiWidgetGenerator host settings in
  let groups := Design.chunksOf 10 (firstn 100 (children node)) in
  Swiftui.widgetGeneratorWithLimits generator node indentLevel
  = (if 100 <? List.length (children node) then Swiftui.truncationWarning else "")
    ++ String.concat "" (repeat (nl ++ "Group {" ++ nl ++ "}") (List.length groups))
  /\ 1 <= List.length groups.
Proof.
  intros Hlen Hhidden generator groups. split.
  - rewrite widgetGeneratorWithLimits_chunkedOutput by exact Hlen.
    unfold Design.chunkedOutput. fold groups. f_equal. f_equal.
    apply map_constant. intros c Hc. unfold Design.groupOf, generator.
    rewrite swiftuiWidgetGenerator_join, filter_none; [reflexivity|].
    intros child Hchild. apply Hhidden.
    apply (incl_firstn 100 (children node)).
    exact (chunksFuel_incl 10 _ _ c Hc child Hchild).
  - pose proof (chunksFuel_count (List.length (firstn 100 (children node)))
                  (firstn 100 (children node)) (le_n _)) as [Hlo _].
    fold (Design.chunksOf 10 (firstn 100 (children node))) in Hlo.
    fold groups in Hlo. rewrite length_firstn in Hlo. lia.
Qed.

Lemma widgetGeneratorWithLimits_hidden_children_witness :
  Swiftui.widgetGeneratorWithLimits Sample.generator MoreSamples.hiddenGroup 0
  = "" ++ String.concat ""
            (repeat (nl ++ "Group {" ++ nl ++ "}")
               (List.length (Design.chunksOf 10
                               (firstn 100 (children MoreSamples.hiddenGroup))))).
Proof.
  refine (proj1 (widgetGeneratorWithLimits_hidden_children Sample.swiftuiHost
                   Sample.snippet MoreSamples.hiddenGroup 0 _ _)).
  - apply Nat.leb_le. reflexivity.
  - intros child Hchild. apply repeat_spec in Hchild. now subst.
Defined.
